(** * arm_diagnostics: status line, log interleaving, watchdog

    A shallow embedding of [arm_diagnostics.py].

    - Python [str] values are lists of characters, [len] is the list length
      read as an integer, and [sys.stdout.write] appends to the stream of
      characters sent to the terminal.
    - In the update callback, [time.perf_counter()] readings and the
      smoothed period are binary64 numbers with the processor's arithmetic.
      The watchdog only compares differences of readings with 2, 3 and 5;
      there the readings are exact rationals. Every comparison of the
      source is kept with its strictness.
    - Exceptions are explicit outcomes of a small state-and-exception monad;
      reading an attribute of an update payload can raise, and so can [str]
      and [float] on its values. *)

From Stdlib Require Import ZArith List Ascii String DecimalString Bool Lia.
From Stdlib Require Import QArith Qround Lqa.
From Stdlib Require PrimFloat.
Import ListNotations.
Local Open Scope Z_scope.

(** ** Python strings *)

Module Py.

Definition str := list ascii.

Definition newline : ascii := "010"%char.
Definition cr : ascii := "013"%char.
Definition space : ascii := " "%char.

Definition len (s : str) : Z := Z.of_nat (List.length s).

(** [s.replace("\n", " ")] *)
Definition replace_newlines (s : str) : str :=
  map (fun c => if Ascii.eqb c newline then space else c) s.

(** [s[:stop]], with Python's reading of a negative [stop]. *)
Definition slice_to (stop : Z) (s : str) : str :=
  if stop <? 0
  then firstn (Z.to_nat (Z.max 0 (len s + stop))) s
  else firstn (Z.to_nat stop) s.

(** [" " * n]; a count of zero or less gives the empty string. *)
Definition spaces (n : Z) : str := repeat space (Z.to_nat n).

(** [x or y] on integers. *)
Definition int_or (x y : Z) : Z := if x =? 0 then y else x.

Definition of_string (s : string) : str := list_ascii_of_string s.

End Py.

(** ** [shutil.get_terminal_size]

    The library reports the measured column count when there is one and it
    is positive, and the caller's fallback otherwise. [measured] is what the
    environment answers at the time of the call. *)
Definition get_terminal_size (measured : option Z) (fallback : Z) : Z :=
  match measured with
  | Some columns => if 0 <? columns then columns else fallback
  | None => fallback
  end.

(** ** class StatusDisplay *)

Record StatusDisplay := mkStatusDisplay {
  last_text : Py.str;
  last_length : Z;
  active : bool;
  last_width : Z
}.

(** [StatusDisplay.__init__] *)
Definition init (measured : option Z) : StatusDisplay :=
  {| last_text := [];
     last_length := 0;
     active := false;
     last_width := get_terminal_size measured 120 |}.

Definition ellipsis : Py.str := Py.of_string "...".

(** The width [write] works with: re-measured, falling back on the
    remembered one. *)
Definition measure_width (measured : option Z) (d : StatusDisplay) : Z :=
  get_terminal_size measured (Py.int_or (last_width d) 120).

(** Lines 41-46 of [write]: the text as it will be shown. *)
Definition fit (width : Z) (text : Py.str) : Py.str :=
  let text := Py.replace_newlines text in
  let max_len := Z.max 20 (width - 1) in
  if max_len <? Py.len text
  then Py.slice_to (max_len - 3) text ++ ellipsis
  else text.

(** Every operation returns the new object state and the characters it
    wrote to [sys.stdout]. *)
Definition write (measured : option Z) (text : option Py.str)
    (d : StatusDisplay) : StatusDisplay * Py.str :=
  match text with
  | None => (d, [])
  | Some text =>
      let width := measure_width measured d in
      let text := fit width text in
      let pad :=
        if Py.len text <? last_length d
        then Py.spaces (last_length d - Py.len text)
        else [] in
      ({| last_text := text;
          last_length := Py.len text;
          active := true;
          last_width := width |},
       Py.cr :: text ++ pad)
  end.

Definition interrupt (d : StatusDisplay) : StatusDisplay * Py.str :=
  if active d
  then ({| last_text := last_text d;
           last_length := last_length d;
           active := false;
           last_width := last_width d |},
        Py.cr :: Py.spaces (last_length d) ++ [Py.cr])
  else (d, [Py.cr]).

(** The padding [restore] adds after the remembered text. *)
Definition restore_pad (d : StatusDisplay) : Py.str :=
  if Py.len (last_text d) <? last_length d
  then Py.spaces (last_length d - Py.len (last_text d))
  else [].

Definition restore (d : StatusDisplay) : StatusDisplay * Py.str :=
  match last_text d with
  | [] => (d, [])
  | _ :: _ =>
      ({| last_text := last_text d;
          last_length := last_length d;
          active := true;
          last_width := last_width d |},
       Py.cr :: last_text d ++ restore_pad d)
  end.

Definition clear (d : StatusDisplay) : StatusDisplay * Py.str :=
  ({| last_text := [];
      last_length := 0;
      active := false;
      last_width := last_width d |},
   Py.cr :: Py.spaces (last_length d) ++ [Py.cr]).

(** ** The terminal's current line

    What the characters written to [sys.stdout] look like: a carriage return
    moves the cursor to the first column, a newline starts a fresh line, and
    any other character replaces the cell under the cursor and moves the
    cursor one cell to the right. A cell never written shows a blank. *)

Record Terminal := mkTerminal {
  line : list ascii;
  cursor : nat
}.

Definition blank_line : Terminal := {| line := []; cursor := 0 |}.

Definition cell (l : list ascii) (n : nat) : ascii := nth n l Py.space.

Fixpoint put_at (n : nat) (c : ascii) (l : list ascii) : list ascii :=
  match n, l with
  | O, [] => [c]
  | O, _ :: l' => c :: l'
  | S n', [] => Py.space :: put_at n' c []
  | S n', x :: l' => x :: put_at n' c l'
  end.

Definition put_char (t : Terminal) (c : ascii) : Terminal :=
  if Ascii.eqb c Py.cr then {| line := line t; cursor := 0 |}
  else if Ascii.eqb c Py.newline then blank_line
  else {| line := put_at (cursor t) c (line t); cursor := S (cursor t) |}.

Definition print (s : Py.str) (t : Terminal) : Terminal :=
  fold_left put_char s t.

(** Two lines look the same when every cell agrees. *)
Definition same_line (a b : Terminal) : Prop :=
  forall n, cell (line a) n = cell (line b) n.

(** The line shows [text]: it looks like [text] printed from the first
    column of an empty line. *)
Definition shows (t : Terminal) (text : Py.str) : Prop :=
  same_line t (print (Py.cr :: text) blank_line).

(** ** Exceptions and effects *)

(** Exceptions deriving from [Exception]. [TypeError] and [ValueError]
    stand for themselves and their subclasses, [OtherException] for any
    other class. *)
Inductive Exn :=
| TypeError
| ValueError
| OtherException (name : string).

Inductive Outcome (A : Type) :=
| Returned (a : A)
| Raised (e : Exn).
Arguments Returned {A} a.
Arguments Raised {A} e.

(** The process state the logging path works on: the [STATUS_DISPLAY]
    singleton and everything written to [sys.stdout] so far. *)
Record World := mkWorld {
  display : StatusDisplay;
  stdout : Py.str
}.

Definition M (A : Type) : Type := World -> Outcome A * World.

Definition ret {A} (a : A) : M A := fun w => (Returned a, w).

Definition bind {A B} (m : M A) (k : A -> M B) : M B :=
  fun w =>
    match m w with
    | (Returned a, w') => k a w'
    | (Raised e, w') => (Raised e, w')
    end.

Notation "m ;; k" := (bind m (fun _ => k))
  (at level 61, right associativity).

(** [try: body finally: fin]: [fin] runs on both exits of [body]; an
    exception of [fin] replaces the pending one. *)
Definition try_finally {A} (body : M A) (fin : M unit) : M A :=
  fun w =>
    match body w with
    | (Returned a, w') =>
        match fin w' with
        | (Returned _, w'') => (Returned a, w'')
        | (Raised e, w'') => (Raised e, w'')
        end
    | (Raised e, w') =>
        match fin w' with
        | (Returned _, w'') => (Raised e, w'')
        | (Raised e', w'') => (Raised e', w'')
        end
    end.

(** A method call on [STATUS_DISPLAY]. *)
Definition on_display (op : StatusDisplay -> StatusDisplay * Py.str) : M unit :=
  fun w =>
    let (d, written) := op (display w) in
    (Returned tt, {| display := d; stdout := stdout w ++ written |}).

Section StatusAwareStreamHandler.

Variable LogRecord : Type.

(** [logging.StreamHandler.emit] on [sys.stdout]: the characters it gets
    written and whether it returns or raises. *)
Variable stream_emit : LogRecord -> Outcome unit * Py.str.

Definition super_emit (record : LogRecord) : M unit :=
  fun w =>
    let (o, written) := stream_emit record in
    (o, {| display := display w; stdout := stdout w ++ written |}).

Definition emit (record : LogRecord) : M unit :=
  on_display interrupt ;;
  try_finally (super_emit record) (on_display restore).

End StatusAwareStreamHandler.

(** ** Numbers and formatting *)

(** [x < y] on clock readings, as a test. *)
Definition Qltb (x y : Q) : bool := negb (Qle_bool y x).

(** Exceptions without the process state: the monad of [_format_status]. *)
Definition obind {A B} (m : Outcome A) (k : A -> Outcome B) : Outcome B :=
  match m with
  | Returned a => k a
  | Raised e => Raised e
  end.

Notation "'let*' x ':=' m 'in' k" := (obind m (fun x => k))
  (at level 10, x name, m at level 100, k at level 200).

(** [try: body except (TypeError, ValueError): a except Exception: b] *)
Definition try_except {A} (body : Outcome A) (a b : Outcome A) : Outcome A :=
  match body with
  | Returned v => Returned v
  | Raised TypeError => a
  | Raised ValueError => a
  | Raised (OtherException _) => b
  end.

(** The format spec [>w] on a string. *)
Definition rjust (w : nat) (s : Py.str) : Py.str :=
  repeat Py.space (w - List.length s) ++ s.

Definition decimal (n : N) : Py.str :=
  Py.of_string (NilZero.string_of_uint (N.to_uint n)).

(** The format spec [06d] on an integer. *)
Definition format_06d (n : Z) : Py.str :=
  let digits := decimal (Z.to_N (Z.abs n)) in
  if n <? 0
  then "-"%char :: repeat "0"%char (5 - List.length digits) ++ digits
  else repeat "0"%char (6 - List.length digits) ++ digits.

(** [sep.join(parts)] *)
Fixpoint join (sep : Py.str) (parts : list Py.str) : Py.str :=
  match parts with
  | [] => []
  | [p] => p
  | p :: rest => p ++ sep ++ join sep rest
  end.

(** Values found in an update payload: [None] or an object of the driver. *)
Inductive Value (Obj : Type) :=
| PyNone
| PyObj (o : Obj).
Arguments PyNone {Obj}.
Arguments PyObj {Obj} o.

(** Messages handed to [LOGGER]. [T] is the type of the times they carry:
    binary64 numbers in the callback, exact rationals in the watchdog. *)
Inductive LogMsgOf (T Obj : Type) :=
| GapWarning (dt : T)
| FirstCallback
| FirstUpdate
| ButtonChanged (old new : Value Obj)
| NoUpdatesWarning (elapsed_since_start : T)
| StalledWarning (age : T).
Arguments GapWarning {T Obj} dt.
Arguments FirstCallback {T Obj}.
Arguments FirstUpdate {T Obj}.
Arguments ButtonChanged {T Obj} old new.
Arguments NoUpdatesWarning {T Obj} elapsed_since_start.
Arguments StalledWarning {T Obj} age.

Abbreviation LogMsg := (LogMsgOf Q).

(** The fields of [FaroArmListener] the callback and the watchdog share.
    The callback computes them in binary64; the watchdog, which only
    compares differences of readings with 2, 3 and 5, reads them as exact
    rationals. *)
Record StatsOf (T Obj : Type) := mkStats {
  update_count : Z;
  last_button_state : Value Obj;
  last_receive_time : option T;
  avg_period : option T;
  start_time : T
}.
Arguments mkStats {T Obj}.
Arguments update_count {T Obj}.
Arguments last_button_state {T Obj}.
Arguments last_receive_time {T Obj}.
Arguments avg_period {T Obj}.
Arguments start_time {T Obj}.

Abbreviation Stats := (StatsOf Q).

(** The fields as [FaroArmListener.__init__] sets them. *)
Definition new_stats {T : Type} (Obj : Type) (start : T) : StatsOf T Obj :=
  {| update_count := 0;
     last_button_state := PyNone;
     last_receive_time := None;
     avg_period := None;
     start_time := start |}.

(** The local variables of [_monitor_updates]. *)
Record Watchdog := mkWatchdog {
  last_count : Z;
  last_warning_time : Q
}.

(** ** Attribute tables

    An object of the driver whose attributes are plain data: reading one
    gives its value or finds it missing. *)

Section Attributes.

Variable Obj : Type.
Variable str_of : Obj -> Py.str.
Variable obj_eqb : Obj -> Obj -> bool.



(** [str(value)] *)
Definition py_str (value : Value Obj) : Py.str :=
  match value with
  | PyNone => Py.of_string "None"
  | PyObj o => str_of o
  end.

(** [a != b] *)
Definition value_neq (a b : Value Obj) : bool :=
  match a, b with
  | PyNone, PyNone => false
  | PyObj x, PyObj y => negb (obj_eqb x y)
  | _, _ => true
  end.

End Attributes.

(** ** Binary64 constants *)

Module F64.

Import PrimFloat.

Definition zero : float := 0%float.
Definition half : float := 0.5%float.
Definition one : float := 1%float.
Definition thousand : float := 1000%float.
(** The doubles nearest to 0.9 and 0.1. *)
Definition nine_tenths : float := 0x1.ccccccccccccdp-1%float.
Definition one_tenth : float := 0x1.999999999999ap-4%float.

End F64.

(** ** The update callback and the status text *)

(** What reading an attribute of an update payload does: the attribute is
    missing ([AttributeError]), holds a value, or its getter raises some
    other exception. *)
Inductive Attr (Obj : Type) :=
| Missing
| Holds (v : Value Obj)
| ReadRaises (e : Exn).
Arguments Missing {Obj}.
Arguments Holds {Obj} v.
Arguments ReadRaises {Obj} e.

Definition lit (s : string) : Py.str := Py.of_string s.

Definition na7 : Py.str := Py.of_string "   n/a ".
Definition err7 : Py.str := Py.of_string "   err ".
Definition na5 : Py.str := Py.of_string "  n/a".
Definition err5 : Py.str := Py.of_string "  err".

(** [f"Angle{idx}"] *)
Definition angle_attr (idx : nat) : string :=
  String.append "Angle" (NilZero.string_of_uint (Nat.to_uint idx)).

(** The attributes of the payload [_format_status] reads, and those it
    prints with [str]. *)
Definition status_attrs : list string :=
  ["Buttons"; "TimeStamp"; "X"; "Y"; "Z"; "A"; "B"; "C"]%string
  ++ map angle_attr (seq 1 7).

Definition printed_attrs : list string := ["Buttons"; "TimeStamp"]%string.

(** The f-string of [_format_status], from its thirteen pieces. *)
Definition status_line
    (count ts x y z a b c angles buttons dt_ms avg_hz uptime : Py.str) : Py.str :=
  lit "#" ++ count ++ lit " | ts=" ++ ts
  ++ lit " | XYZ=(" ++ x ++ lit ", " ++ y ++ lit ", " ++ z ++ lit ") | "
  ++ lit "ABC=(" ++ a ++ lit ", " ++ b ++ lit ", " ++ c ++ lit ") | "
  ++ lit "Angles=(" ++ angles ++ lit ") | Buttons=" ++ buttons
  ++ lit " | dt=" ++ dt_ms ++ lit " | avg=" ++ avg_hz
  ++ lit " | uptime=" ++ uptime ++ lit "s".

Section FaroArmListener.

(** The driver's objects and what Python's built-ins do with them. *)
Variable Obj : Type.
Variable float_of : Obj -> Outcome PrimFloat.float.
Variable str_outcome : Obj -> Outcome Py.str.
Variable obj_eqb : Obj -> Obj -> bool.

(** The format spec [w.pf] on a float. *)
Variable format_f : nat -> nat -> PrimFloat.float -> Py.str.

(** An update payload: what reading each attribute does, and what
    [dir(update)] gives. Reading the same attribute again does the same. *)
Record Payload := mkPayload {
  attribute : string -> Attr Obj;
  dir : Outcome (list string)
}.

(** [getattr(update, name, default)]: only [AttributeError] gives the
    default. *)
Definition read_attr (update : Payload) (name : string) (default : Value Obj)
    : Outcome (Value Obj) :=
  match attribute update name with
  | Missing => Returned default
  | Holds v => Returned v
  | ReadRaises e => Raised e
  end.

(** [getattr(update, name)] *)
Definition read_attr_strict (update : Payload) (name : string)
    : Outcome (Value Obj) :=
  match attribute update name with
  | Missing => Raised (OtherException "AttributeError")
  | Holds v => Returned v
  | ReadRaises e => Raised e
  end.

(** [hasattr(update, name)]: only [AttributeError] gives [False]. *)
Definition has_attr (update : Payload) (name : string) : Outcome bool :=
  match attribute update name with
  | Missing => Returned false
  | Holds _ => Returned true
  | ReadRaises e => Raised e
  end.

(** [float(value)] *)
Definition py_float (value : Value Obj) : Outcome PrimFloat.float :=
  match value with
  | PyNone => Raised TypeError
  | PyObj o => float_of o
  end.

(** [str(value)], which runs the object's own conversion. *)
Definition str_value (value : Value Obj) : Outcome Py.str :=
  match value with
  | PyNone => Returned (Py.of_string "None")
  | PyObj o => str_outcome o
  end.

Definition safe_float (value : Value Obj) : Outcome Py.str :=
  try_except
    (let* x := py_float value in Returned (format_f 8 3 x))
    (Returned na7)
    (Returned err7).

(** One round of the loop over [range(1, 8)]. *)
Definition angle_step (update : Payload) (angles : list Py.str) (idx : nat)
    : Outcome (list Py.str) :=
  let attr := angle_attr idx in
  let* present := has_attr update attr in
  if present
  then
    try_except
      (let* v := read_attr_strict update attr in
       let* x := py_float v in
       Returned (angles ++ [format_f 6 2 x]))
      (Returned (angles ++ [na5]))
      (Returned (angles ++ [err5]))
  else Returned angles.

Fixpoint angle_loop (update : Payload) (idxs : list nat) (angles : list Py.str)
    : Outcome (list Py.str) :=
  match idxs with
  | [] => Returned angles
  | idx :: rest =>
      let* angles := angle_step update angles idx in
      angle_loop update rest angles
  end.

(** [dt_ms] and [avg_hz] of [_format_status]; a float is true when it is
    not zero. *)
Definition dt_ms (dt : option PrimFloat.float) : Py.str :=
  match dt with
  | Some dt => format_f 6 1 (PrimFloat.mul dt F64.thousand) ++ lit "ms"
  | None => lit "   --- "
  end.

Definition avg_hz (self : StatsOf PrimFloat.float Obj) : Py.str :=
  match avg_period self with
  | Some p =>
      if negb (PrimFloat.eqb p F64.zero) && PrimFloat.ltb F64.zero p
      then format_f 6 2 (PrimFloat.div F64.one p) ++ lit "Hz"
      else lit "--.-Hz"
  | None => lit "--.-Hz"
  end.

Definition _format_status (self : StatsOf PrimFloat.float Obj) (update : Payload)
    (dt : option PrimFloat.float) (uptime : PrimFloat.float) : Outcome Py.str :=
  let dt_ms := dt_ms dt in
  let avg_hz := avg_hz self in
  let* buttons := read_attr update "Buttons" PyNone in
  let* buttons_display :=
    match buttons with
    | PyNone => Returned (lit "-")
    | PyObj _ => str_value buttons
    end in
  let* angles := angle_loop update (seq 1 7) [] in
  let angles_display :=
    match angles with
    | [] => lit "n/a"
    | _ :: _ => join (lit ", ") angles
    end in
  (* [getattr(update, 'TimeStamp', '-')!s]: the default is the string "-" *)
  let* ts :=
    match attribute update "TimeStamp" with
    | Missing => Returned (lit "-")
    | Holds v => str_value v
    | ReadRaises e => Raised e
    end in
  let* vx := read_attr update "X" PyNone in
  let* x := safe_float vx in
  let* vy := read_attr update "Y" PyNone in
  let* y := safe_float vy in
  let* vz := read_attr update "Z" PyNone in
  let* z := safe_float vz in
  let* va := read_attr update "A" PyNone in
  let* a := safe_float va in
  let* vb := read_attr update "B" PyNone in
  let* b := safe_float vb in
  let* vc := read_attr update "C" PyNone in
  let* c := safe_float vc in
  let status :=
    status_line (format_06d (update_count self)) (rjust 10 ts) x y z a b c
      angles_display buttons_display dt_ms avg_hz
      (format_f 6 1 uptime) in
  let collapsed := Py.replace_newlines status in
  Returned (Py.slice_to 512 collapsed).

(** What one run of the callback built by [_build_handler] leaves behind:
    the listener's fields, the messages logged, what [_format_status] gave
    (the text handed to [STATUS_DISPLAY.write], or its exception), and how
    the callback ended. The calls of [LOGGER] and [STATUS_DISPLAY.write]
    are taken to return, and so is the comparison of the button values;
    [FirstUpdate] stands for the three records logged on the first update,
    which come after [dir(update)]. *)
Record Handled := mkHandled {
  stats_after : StatsOf PrimFloat.float Obj;
  logged : list (LogMsgOf PrimFloat.float Obj);
  status : Outcome Py.str;
  ended : Outcome unit
}.

Definition handler (now : PrimFloat.float) (update : Payload)
    (self : StatsOf PrimFloat.float Obj) : Handled :=
  let count := update_count self + 1 in
  let '(dt, avg, log1) :=
    match last_receive_time self with
    | Some last =>
        let dt := PrimFloat.sub now last in
        let avg :=
          match avg_period self with
          | None => dt
          | Some p =>
              PrimFloat.add (PrimFloat.mul F64.nine_tenths p)
                            (PrimFloat.mul F64.one_tenth dt)
          end in
        (Some dt, Some avg,
         if PrimFloat.ltb F64.half dt then [GapWarning dt] else [])
    | None => (None, avg_period self, [FirstCallback])
    end in
  let self1 :=
    {| update_count := count;
       last_button_state := last_button_state self;
       last_receive_time := Some now;
       avg_period := avg;
       start_time := start_time self |} in
  let uptime := PrimFloat.sub now (start_time self) in
  match _format_status self1 update dt uptime with
  | Raised e =>
      {| stats_after := self1; logged := log1;
         status := Raised e; ended := Raised e |}
  | Returned text =>
      let first :=
        if count =? 1
        then let* attrs := dir update in Returned [FirstUpdate]
        else Returned [] in
      match first, read_attr update "Buttons" PyNone with
      | Raised e, _ =>
          {| stats_after := self1; logged := log1;
             status := Returned text; ended := Raised e |}
      | Returned log2, Raised e =>
          {| stats_after := self1; logged := log1 ++ log2;
             status := Returned text; ended := Raised e |}
      | Returned log2, Returned buttons =>
          if value_neq Obj obj_eqb buttons (last_button_state self1)
          then
            {| stats_after :=
                 {| update_count := count;
                    last_button_state := buttons;
                    last_receive_time := Some now;
                    avg_period := avg;
                    start_time := start_time self |};
               logged :=
                 log1 ++ log2
                   ++ [ButtonChanged (last_button_state self1) buttons];
               status := Returned text;
               ended := Returned tt |}
          else
            {| stats_after := self1;
               logged := log1 ++ log2;
               status := Returned text;
               ended := Returned tt |}
      end
  end.

(** The listener after a series of updates, delivered at the given clock
    readings. *)
Fixpoint deliver (updates : list (PrimFloat.float * Payload))
    (self : StatsOf PrimFloat.float Obj) : StatsOf PrimFloat.float Obj :=
  match updates with
  | [] => self
  | (now, update) :: rest => deliver rest (stats_after (handler now update self))
  end.

(** How a field looks in the status line, given what [float] makes of its
    value. *)
Definition shown7 (value : Value Obj) : Py.str :=
  match py_float value with
  | Returned x => format_f 8 3 x
  | Raised TypeError => na7
  | Raised ValueError => na7
  | Raised (OtherException _) => err7
  end.

Definition shown5 (value : Value Obj) : Py.str :=
  match py_float value with
  | Returned x => format_f 6 2 x
  | Raised TypeError => na5
  | Raised ValueError => na5
  | Raised (OtherException _) => err5
  end.

(** The value of an attribute, [None] when it is missing. *)
Definition value_or_none (update : Payload) (name : string) : Value Obj :=
  match attribute update name with
  | Holds v => v
  | _ => PyNone
  end.

(** The joint angles that are present, as they are shown. *)
Definition shown_angles (update : Payload) (idxs : list nat) : list Py.str :=
  flat_map
    (fun idx =>
       match attribute update (angle_attr idx) with
       | Holds v => [shown5 v]
       | _ => []
       end)
    idxs.

End FaroArmListener.

Section UpdateWatchdog.

Variable Obj : Type.

(** The body of the loop of [_monitor_updates], run at clock reading
    [now]: the watchdog's variables afterwards and the warning logged, if
    any. *)
Definition monitor_tick (self : Stats Obj) (now : Q) (w : Watchdog)
    : Watchdog * option (LogMsg Obj) :=
  let elapsed_since_start := (now - start_time self)%Q in
  if (update_count self =? 0) && Qltb 2 elapsed_since_start
  then
    if Qltb 5 (now - last_warning_time w)
    then ({| last_count := last_count w; last_warning_time := now |},
          Some (NoUpdatesWarning elapsed_since_start))
    else (w, None)
  else if update_count self =? last_count w
  then
    match last_receive_time self with
    | Some last =>
        if Qltb 3 (now - last)
        then
          if Qltb 5 (now - last_warning_time w)
          then ({| last_count := last_count w; last_warning_time := now |},
                Some (StalledWarning (now - last)%Q))
          else (w, None)
        else (w, None)
    | None => (w, None)
    end
  else ({| last_count := update_count self;
           last_warning_time := last_warning_time w |}, None).

Definition new_watchdog : Watchdog :=
  {| last_count := 0; last_warning_time := 0 |}.

(** [_monitor_updates]: one entry per wake-up that found the shutdown
    event unset, with the clock reading and the listener's fields at that
    moment. The result lists each wake-up's warning. *)
Fixpoint monitor_loop (ticks : list (Q * Stats Obj)) (w : Watchdog)
    : list (option (LogMsg Obj)) :=
  match ticks with
  | [] => []
  | (now, self) :: rest =>
      let (w', warning) := monitor_tick self now w in
      warning :: monitor_loop rest w'
  end.

Definition _monitor_updates (ticks : list (Q * Stats Obj))
    : list (option (LogMsg Obj)) :=
  monitor_loop ticks new_watchdog.

End UpdateWatchdog.

(** ** Calls on the status display *)

Inductive Call :=
| CallWrite (measured : option Z) (text : option Py.str)
| CallInterrupt
| CallRestore
| CallClear.

Definition perform (c : Call) (d : StatusDisplay) : StatusDisplay * Py.str :=
  match c with
  | CallWrite measured text => write measured text d
  | CallInterrupt => interrupt d
  | CallRestore => restore d
  | CallClear => clear d
  end.

(** The states a [StatusDisplay] object goes through. *)
Inductive reachable : StatusDisplay -> Prop :=
| reachable_init measured : reachable (init measured)
| reachable_call c d : reachable d -> reachable (fst (perform c d)).

(** [displayed_length] is the length of [current_text]. *)
Definition consistent (d : StatusDisplay) : Prop :=
  last_length d = Py.len (last_text d).

(** [s] ends with the three dots. *)
Definition ends_with_ellipsis (s : Py.str) : Prop :=
  exists head, s = head ++ ellipsis.

(** ** A driver to run the model on

    Objects are numbers, strings that are not numbers, and integers too
    large for a float; [format_f] prints the integer part only. *)

Module Demo.

Inductive Obj :=
| Number (x : Q)
| Text (s : string)
| HugeInt.

Fixpoint float_of_pos (p : positive) : PrimFloat.float :=
  match p with
  | xH => F64.one
  | xO p => PrimFloat.add (float_of_pos p) (float_of_pos p)
  | xI p => PrimFloat.add (PrimFloat.add (float_of_pos p) (float_of_pos p)) F64.one
  end.

Definition float_of_Z (z : Z) : PrimFloat.float :=
  match z with
  | Z0 => F64.zero
  | Zpos p => float_of_pos p
  | Zneg p => PrimFloat.opp (float_of_pos p)
  end.

Definition float_of_Q (x : Q) : PrimFloat.float :=
  PrimFloat.div (float_of_Z (Qnum x)) (float_of_pos (Qden x)).

Definition float_of (o : Obj) : Outcome PrimFloat.float :=
  match o with
  | Number x => Returned (float_of_Q x)
  | Text _ => Raised ValueError
  | HugeInt => Raised (OtherException "OverflowError")
  end.

Definition str_of (o : Obj) : Py.str :=
  match o with
  | Number x => decimal (Z.to_N (Z.abs (Qfloor x)))
  | Text s => Py.of_string s
  | HugeInt => Py.of_string "huge"
  end.

Definition str_outcome (o : Obj) : Outcome Py.str := Returned (str_of o).

Definition obj_eqb (a b : Obj) : bool :=
  match a, b with
  | Number x, Number y => Qeq_bool x y
  | Text s, Text t => String.eqb s t
  | HugeInt, HugeInt => true
  | _, _ => false
  end.

(** The integer part of a number below 1000. *)
Fixpoint whole (fuel : nat) (x : PrimFloat.float) : N :=
  match fuel with
  | O => 0%N
  | S fuel =>
      if PrimFloat.ltb x F64.one then 0%N
      else N.succ (whole fuel (PrimFloat.sub x F64.one))
  end.

Definition format_f (w p : nat) (x : PrimFloat.float) : Py.str :=
  rjust w (decimal (whole 1000 (PrimFloat.abs x))).

(** A payload with a position only, whose [Y] is not a number and whose [Z]
    overflows. *)
Definition update1 : Payload Obj :=
  {| attribute := fun name =>
       if String.eqb name "X" then Holds (PyObj (Number 12))
       else if String.eqb name "Y" then Holds (PyObj (Text "oops"))
       else if String.eqb name "Z" then Holds (PyObj HugeInt)
       else if String.eqb name "Angle2" then Holds PyNone
       else Missing;
     dir := Returned ["X"; "Y"; "Z"; "Angle2"]%string |}.

Definition empty_update : Payload Obj :=
  {| attribute := fun _ => Missing; dir := Returned [] |}.

(** A payload whose [Buttons] property raises when it is read. *)
Definition broken_update : Payload Obj :=
  {| attribute := fun name =>
       if String.eqb name "Buttons"
       then ReadRaises (OtherException "InvalidOperationException")
       else Missing;
     dir := Returned ["Buttons"]%string |}.

End Demo.

(** ** More of the listener *)

(** No carriage return and no newline in [s]: printing it moves right only. *)
Definition plain (s : Py.str) : Prop :=
  Forall (fun c => c <> Py.cr /\ c <> Py.newline) s.

(** The clock readings of the wake-ups that logged something, given the
    wake-ups and what [_monitor_updates] logged at each. *)
Definition warning_times {Obj : Type} (ticks : list (Q * Stats Obj))
    (logged : list (option (LogMsg Obj))) : list Q :=
  map (fun p => fst (fst p))
      (filter (fun p => match snd p with Some _ => true | None => false end)
              (combine ticks logged)).

(** Each reading is more than 5 seconds after the one before, starting
    from [last]. *)
Fixpoint spaced (last : Q) (times : list Q) : Prop :=
  match times with
  | [] => True
  | t :: rest => (5 < t - last)%Q /\ spaced t rest
  end.

(** At each wake-up the count is not zero and differs from the count at the
    wake-up before, starting from [count]. *)
Fixpoint advancing {Obj : Type} (count : Z) (ticks : list (Q * Stats Obj)) : Prop :=
  match ticks with
  | [] => True
  | (_, self) :: rest =>
      update_count self <> 0 /\ update_count self <> count /\
      advancing (update_count self) rest
  end.

Section DescribeArm.

Variable Obj : Type.
Variable str_of : Obj -> Py.str.

(** [bool(o)] for an object of the driver. *)
Variable truthy : Obj -> bool.






End DescribeArm.

(** ** [add_reference] *)

(** What [add_reference] changes in the interpreter: [sys.path], the DLL
    search path and the assemblies referenced through [clr]. *)
Record Interp := mkInterp {
  sys_path : list Py.str;
  dll_dirs : list Py.str;
  references : list Py.str
}.

Definition str_eq_dec : forall a b : Py.str, {a = b} + {a <> b} :=
  list_eq_dec ascii_dec.

Section AddReference.

(** [import clr] succeeds. *)
Variable clr_installed : bool.
(** [hasattr(os, "add_dll_directory")] *)
Variable has_add_dll_directory : bool.
Variable add_dll_directory : Py.str -> Outcome unit.
Variable AddReference : Py.str -> Outcome unit.
(** [LOGGER.debug] with the given message. *)
Variable debug : string -> Outcome unit.
(** [str(path / name)] *)
Variable child : Py.str -> string -> Py.str.

(** [path] is [str(path)]. *)
Definition add_reference (path : Py.str) (i : Interp) : Outcome unit * Interp :=
  match debug "Adding Faro .NET references from %s" with
  | Raised e => (Raised e, i)
  | Returned _ =>
  if negb clr_installed then (Raised (OtherException "RuntimeError"), i) else
  let step1 :=
    if has_add_dll_directory
    then
      match add_dll_directory path with
      | Raised e => (Raised e, i)
      | Returned _ =>
          let i1 := {| sys_path := sys_path i;
                       dll_dirs := dll_dirs i ++ [path];
                       references := references i |} in
          (debug "Registered %s with DLL search path", i1)
      end
    else (Returned tt, i) in
  match step1 with
  | (Raised e, i1) => (Raised e, i1)
  | (Returned _, i1) =>
  let step2 :=
    if in_dec str_eq_dec path (sys_path i1)
    then (Returned tt, i1)
    else
      (debug "Inserted %s into sys.path",
       {| sys_path := path :: sys_path i1;
          dll_dirs := dll_dirs i1;
          references := references i1 |}) in
  match step2 with
  | (Raised e, i2) => (Raised e, i2)
  | (Returned _, i2) =>
  match AddReference (child path "FaroArm.Interfaces.dll") with
  | Raised e => (Raised e, i2)
  | Returned _ =>
  let i3 := {| sys_path := sys_path i2;
               dll_dirs := dll_dirs i2;
               references := references i2 ++ [child path "FaroArm.Interfaces.dll"] |} in
  match AddReference (child path "FaroArm.Net.dll") with
  | Raised e => (Raised e, i3)
  | Returned _ =>
  let i4 := {| sys_path := sys_path i3;
               dll_dirs := dll_dirs i3;
               references := references i3 ++ [child path "FaroArm.Net.dll"] |} in
  (debug "Successfully loaded FaroArm .NET assemblies", i4)
  end end end end end.

End AddReference.

(** ** [FaroArmListener.close] *)

Inductive DriverCall :=
| EnableFaroArmUpdates (on : bool)
| Unsubscribe
| Disconnect.

Inductive Level := DEBUG | INFO | WARNING.

(** The process during teardown: display and output, the calls the driver
    has received, and the shutdown event. *)
Record Session := mkSession {
  world : World;
  driver_calls : list DriverCall;
  shutdown_event : bool
}.

Definition Act (A : Type) : Type := Session -> Outcome A * Session.

Definition and_then {A B} (m : Act A) (k : Act B) : Act B :=
  fun s =>
    match m s with
    | (Returned _, s') => k s'
    | (Raised e, s') => (Raised e, s')
    end.

Notation "m >> k" := (and_then m k) (at level 62, right associativity).

(** [try: body except Exception: pass] *)
Definition swallow (body : Act unit) : Act unit :=
  fun s =>
    match body s with
    | (Returned _, s') => (Returned tt, s')
    | (Raised _, s') => (Returned tt, s')
    end.

Definition in_world (m : M unit) : Act unit :=
  fun s =>
    let (o, w) := m (world s) in
    (o, {| world := w;
           driver_calls := driver_calls s;
           shutdown_event := shutdown_event s |}).

Definition set_shutdown : Act unit :=
  fun s =>
    (Returned tt, {| world := world s;
                     driver_calls := driver_calls s;
                     shutdown_event := true |}).

Section Close.

(** [LOGGER.<level>(message)], with the handlers configured by [main]. *)
Variable log : Level -> string -> M unit.

(** The driver's answer to a call, given the calls it received before. *)
Variable driver : list DriverCall -> DriverCall -> Outcome unit.

Definition call_driver (c : DriverCall) : Act unit :=
  fun s =>
    (driver (driver_calls s) c,
     {| world := world s;
        driver_calls := driver_calls s ++ [c];
        shutdown_event := shutdown_event s |}).

(** Waiting for the watchdog thread changes none of these fields and is
    left out. *)
Definition close : Act unit :=
  in_world (log INFO "Shutting down FaroArmListener") >>
  set_shutdown >>
  swallow (in_world (log DEBUG "Disabling Faro arm updates") >>
           call_driver (EnableFaroArmUpdates false)) >>
  swallow (in_world (log DEBUG "Unsubscribing from FaroArmUpdate events") >>
           call_driver Unsubscribe) >>
  swallow (in_world (log INFO "Disconnecting from Faro manager") >>
           call_driver Disconnect) >>
  in_world (log DEBUG "Total updates processed before shutdown: %d") >>
  in_world (on_display clear).

End Close.

(** A logger for runs of the model: every message goes through the status
    aware handler and is written with a newline. *)
Definition demo_log (level : Level) (message : string) : M unit :=
  emit unit (fun _ => (Returned tt, Py.of_string message ++ [Py.newline])) tt.

(** ** The display and the line it draws on *)

(** A call on the display, with what it writes printed on the line. *)
Definition perform_on (c : Call) (dt : StatusDisplay * Terminal)
    : StatusDisplay * Terminal :=
  (fst (perform c (fst dt)), print (snd (perform c (fst dt))) (snd dt)).

Definition run_calls (calls : list Call) (dt : StatusDisplay * Terminal)
    : StatusDisplay * Terminal :=
  fold_left (fun dt c => perform_on c dt) calls dt.

(** The call does not write a text with a carriage return in it. *)
Definition cr_free (c : Call) : Prop :=
  match c with
  | CallWrite _ (Some text) => ~ In Py.cr text
  | _ => True
  end.

(** The line agrees with the display: it shows the remembered text when the
    display is active and is blank when it is not. *)
Definition in_sync (dt : StatusDisplay * Terminal) : Prop :=
  consistent (fst dt) /\
  plain (last_text (fst dt)) /\
  if active (fst dt)
  then shows (snd dt) (last_text (fst dt))
  else same_line (snd dt) blank_line.

(** * Properties *)

(** ** Strings *)

Lemma len_nonneg (s : Py.str) : 0 <= Py.len s.
Proof. unfold Py.len. lia. Qed.

Lemma len_app (s t : Py.str) : Py.len (s ++ t) = Py.len s + Py.len t.
Proof. unfold Py.len. rewrite length_app. lia. Qed.

Lemma len_replace_newlines (s : Py.str) :
  Py.len (Py.replace_newlines s) = Py.len s.
Proof. unfold Py.len, Py.replace_newlines. now rewrite length_map. Qed.

Lemma len_spaces (n : Z) : Py.len (Py.spaces n) = Z.max 0 n.
Proof. unfold Py.len, Py.spaces. rewrite repeat_length. lia. Qed.

Lemma spaces_nonpos (n : Z) : n <= 0 -> Py.spaces n = [].
Proof.
  intros H. unfold Py.spaces.
  replace (Z.to_nat n) with O by lia. reflexivity.
Qed.

Lemma len_slice_to (stop : Z) (s : Py.str) :
  0 <= stop <= Py.len s -> Py.len (Py.slice_to stop s) = stop.
Proof.
  intros [H0 H1]. unfold Py.slice_to.
  destruct (stop <? 0) eqn:E; [apply Z.ltb_lt in E; lia|].
  unfold Py.len in *. rewrite length_firstn. lia.
Qed.

Lemma len_ellipsis : Py.len ellipsis = 3.
Proof. reflexivity. Qed.

(** ** Truncation *)

Lemma fit_short (width : Z) (text : Py.str) :
  Py.len text <= Z.max 20 (width - 1) ->
  fit width text = Py.replace_newlines text.
Proof.
  intros H. unfold fit. rewrite len_replace_newlines.
  destruct (Z.max 20 (width - 1) <? Py.len text) eqn:E; [|reflexivity].
  apply Z.ltb_lt in E. lia.
Qed.

Lemma fit_long (width : Z) (text : Py.str) :
  Z.max 20 (width - 1) < Py.len text ->
  fit width text =
    Py.slice_to (Z.max 20 (width - 1) - 3) (Py.replace_newlines text) ++ ellipsis
  /\ Py.len (fit width text) = Z.max 20 (width - 1).
Proof.
  intros H. unfold fit. rewrite len_replace_newlines.
  destruct (Z.max 20 (width - 1) <? Py.len text) eqn:E.
  - split; [reflexivity|].
    rewrite len_app, len_ellipsis, len_slice_to; [lia|].
    rewrite len_replace_newlines. lia.
  - apply Z.ltb_ge in E. lia.
Qed.

Lemma write_last_text measured text d :
  last_text (fst (write measured (Some text) d)) =
  fit (measure_width measured d) text.
Proof. reflexivity. Qed.

(** ** [StatusDisplay.write] *)

(** C1, as the code has it. After [write] with a text, [displayed_length]
    is the length of the new text (newlines replaced, then truncated), not
    the larger of that and the length before. What reaches the terminal is
    a carriage return, the new text, and as many spaces as the previous
    length exceeds the new one, so text and spaces together cover the larger
    of the two lengths. This holds from every state, hence after each call
    of any sequence of calls. *)
Theorem write_length_and_output
    (measured : option Z) (text : Py.str) (d : StatusDisplay) :
  let shown := fit (measure_width measured d) text in
  let d' := fst (write measured (Some text) d) in
  let written := snd (write measured (Some text) d) in
  last_text d' = shown /\
  last_length d' = Py.len shown /\
  active d' = true /\
  written = Py.cr :: shown ++ Py.spaces (last_length d - Py.len shown) /\
  Py.len (shown ++ Py.spaces (last_length d - Py.len shown))
    = Z.max (Py.len shown) (last_length d).
Proof.
  cbn zeta. unfold write. cbn [fst snd last_text last_length active].
  repeat split.
  - destruct (Py.len _ <? last_length d) eqn:E; [reflexivity|].
    apply Z.ltb_ge in E. rewrite spaces_nonpos by lia. reflexivity.
  - rewrite len_app, len_spaces. lia.
Qed.

(** C1, as stated, fails: after "hello", writing "hi" leaves a
    [displayed_length] of 2, while the larger of the two lengths is 5. *)
Lemma write_length_is_not_the_maximum :
  let d := fst (write (Some 80) (Some (Py.of_string "hello")) (init (Some 80))) in
  let d' := fst (write (Some 80) (Some (Py.of_string "hi")) d) in
  last_length d = 5 /\
  last_length d' = 2 /\
  last_length d' <> Z.max (Py.len (last_text d')) (last_length d).
Proof. vm_compute. repeat split; discriminate. Qed.

(** C3, as the code has it. On a terminal of at least 21 columns, a text
    longer than width - 1 is shown as its first width - 4 characters
    followed by the three dots, width - 1 characters in all, and a text of
    at most width - 1 characters is shown unchanged but for its newlines. *)
Theorem write_truncates_to_width
    (measured : option Z) (text : Py.str) (d : StatusDisplay) :
  let width := measure_width measured d in
  let shown := last_text (fst (write measured (Some text) d)) in
  21 <= width ->
  (width - 1 < Py.len text ->
     Py.len shown = width - 1 /\
     ends_with_ellipsis shown /\
     shown = Py.slice_to (width - 4) (Py.replace_newlines text) ++ ellipsis) /\
  (Py.len text <= width - 1 -> shown = Py.replace_newlines text).
Proof.
  cbn zeta. intros Hw. rewrite write_last_text.
  assert (Hmax : Z.max 20 (measure_width measured d - 1)
                 = measure_width measured d - 1) by lia.
  split.
  - intros Hlong.
    destruct (fit_long (measure_width measured d) text) as [Heq Hlen]; [lia|].
    rewrite Hmax in Heq, Hlen.
    replace (measure_width measured d - 1 - 3)
      with (measure_width measured d - 4) in Heq by lia.
    repeat split; [exact Hlen | | exact Heq].
    eexists. exact Heq.
  - intros Hshort. apply fit_short. lia.
Qed.

Lemma write_truncates_to_width_witness :
  let text := Py.of_string "the quick brown fox jumps over the lazy dog" in
  let d := init None in
  21 <= measure_width (Some 30) d /\
  29 < Py.len text /\
  Py.len (last_text (fst (write (Some 30) (Some text) d))) = 30 - 1.
Proof.
  cbn zeta.
  assert (Hw : 21 <= measure_width (Some 30) (init None)) by (vm_compute; discriminate).
  assert (Hl : 30 - 1 <
      Py.len (Py.of_string "the quick brown fox jumps over the lazy dog"))
    by (vm_compute; reflexivity).
  split; [exact Hw|]. split; [exact Hl|].
  exact (proj1 (proj1
    (write_truncates_to_width (Some 30)
       (Py.of_string "the quick brown fox jumps over the lazy dog")
       (init None) Hw) Hl)).
Defined.

(** C3, as stated, fails on a narrow terminal: at 10 columns a text of 15
    characters is longer than width - 1 = 9 and is shown whole. *)
Lemma narrow_terminal_keeps_long_text :
  let text := Py.of_string "0123456789abcde" in
  let d := init (Some 10) in
  let shown := last_text (fst (write (Some 10) (Some text) d)) in
  measure_width (Some 10) d = 10 /\
  10 - 1 < Py.len text /\
  shown = text /\
  Py.len shown <> 10 - 1.
Proof. vm_compute. repeat split; discriminate. Qed.

(** C10. The limit of [write] is the larger of 20 and width - 1: a text
    longer than the limit is shown with exactly that many characters, ending
    in the three dots; below 21 columns the limit is 20, whatever the
    width; and a text of at most 20 characters is never truncated. *)
Theorem write_minimum_budget
    (measured : option Z) (text : Py.str) (d : StatusDisplay) :
  let width := measure_width measured d in
  let shown := last_text (fst (write measured (Some text) d)) in
  (Z.max 20 (width - 1) < Py.len text ->
     Py.len shown = Z.max 20 (width - 1) /\ ends_with_ellipsis shown) /\
  (width < 21 -> 20 < Py.len text ->
     Py.len shown = 20 /\
     ends_with_ellipsis shown /\
     shown = Py.slice_to 17 (Py.replace_newlines text) ++ ellipsis) /\
  (Py.len text <= 20 -> shown = Py.replace_newlines text).
Proof.
  cbn zeta. rewrite write_last_text. repeat split.
  - apply fit_long. assumption.
  - destruct (fit_long (measure_width measured d) text H) as [Heq _].
    eexists. exact Heq.
  - destruct (fit_long (measure_width measured d) text) as [_ Hlen]; lia.
  - destruct (fit_long (measure_width measured d) text) as [Heq _]; [lia|].
    eexists. exact Heq.
  - destruct (fit_long (measure_width measured d) text) as [Heq _]; [lia|].
    replace (Z.max 20 (measure_width measured d - 1) - 3) with 17 in Heq by lia.
    exact Heq.
  - intros Hshort. apply fit_short. lia.
Qed.

Lemma write_minimum_budget_witness :
  let text := Py.of_string "0123456789abcdefghijklmno" in
  let d := init (Some 10) in
  measure_width (Some 10) d < 21 /\
  20 < Py.len text /\
  Py.len (last_text (fst (write (Some 10) (Some text) d))) = 20.
Proof.
  cbn zeta.
  assert (Hw : measure_width (Some 10) (init (Some 10)) < 21)
    by (vm_compute; reflexivity).
  assert (Hl : 20 < Py.len (Py.of_string "0123456789abcdefghijklmno"))
    by (vm_compute; reflexivity).
  split; [exact Hw|]. split; [exact Hl|].
  exact (proj1 (proj1 (proj2
    (write_minimum_budget (Some 10)
       (Py.of_string "0123456789abcdefghijklmno") (init (Some 10)))) Hw Hl)).
Defined.

(** ** The length invariant *)

Lemma init_consistent measured : consistent (init measured).
Proof. reflexivity. Qed.

Lemma perform_consistent c d : consistent d -> consistent (fst (perform c d)).
Proof.
  unfold consistent. intros H. destruct c as [measured [text|] | | | ]; cbn.
  - reflexivity.
  - exact H.
  - unfold interrupt. destruct (active d); exact H.
  - unfold restore. destruct (last_text d) eqn:E; cbn; rewrite ?E; exact H.
  - reflexivity.
Qed.

Lemma reachable_consistent d : reachable d -> consistent d.
Proof.
  induction 1 as [measured | c d _ IH].
  - apply init_consistent.
  - now apply perform_consistent.
Qed.

Lemma consistent_no_pad d : consistent d -> restore_pad d = [].
Proof.
  unfold consistent, restore_pad. intros ->.
  now rewrite Z.ltb_irrefl.
Qed.

(** C9. [displayed_length] equals the length of [current_text]: at
    construction, and after [write], [interrupt], [restore] and [clear] from
    any state where it holds. So in every state the object goes through, the
    test guarding the padding of [restore] is false and [restore] writes a
    carriage return and the remembered text, nothing more. *)
Theorem length_invariant :
  (forall measured, consistent (init measured)) /\
  (forall c d, consistent d -> consistent (fst (perform c d))) /\
  (forall d, reachable d ->
     consistent d /\
     (Py.len (last_text d) <? last_length d) = false /\
     restore_pad d = [] /\
     (last_text d <> [] -> snd (restore d) = Py.cr :: last_text d)).
Proof.
  split; [exact init_consistent|]. split; [exact perform_consistent|].
  intros d Hr. pose proof (reachable_consistent d Hr) as Hc.
  split; [exact Hc|]. split; [|split].
  - unfold consistent in Hc. rewrite Hc. apply Z.ltb_irrefl.
  - now apply consistent_no_pad.
  - intros Hne. unfold restore. destruct (last_text d) eqn:E; [congruence|].
    cbn [snd]. rewrite consistent_no_pad by exact Hc.
    now rewrite app_nil_r.
Qed.

Lemma length_invariant_witness :
  let d := fst (perform (CallWrite (Some 80) (Some (Py.of_string "abc")))
                  (fst (perform (CallWrite None (Some (Py.of_string "status line")))
                     (init None)))) in
  reachable d /\ consistent d /\ snd (restore d) = Py.cr :: last_text d.
Proof.
  cbn zeta.
  assert (Hr : reachable
    (fst (perform (CallWrite (Some 80) (Some (Py.of_string "abc")))
       (fst (perform (CallWrite None (Some (Py.of_string "status line")))
          (init None)))))) by (do 2 apply reachable_call; apply reachable_init).
  split; [exact Hr|].
  destruct (proj2 (proj2 length_invariant) _ Hr) as [Hc [_ [_ Hw]]].
  split; [exact Hc|]. apply Hw. discriminate.
Defined.

(** ** The terminal line *)

Lemma cell_nil n : cell [] n = Py.space.
Proof. unfold cell. now destruct n. Qed.

Lemma cell_put_at n c l m :
  cell (put_at n c l) m = if Nat.eqb m n then c else cell l m.
Proof.
  unfold cell. revert l m.
  induction n as [|n IH]; intros [|x l] [|m]; cbn [put_at nth Nat.eqb];
    try reflexivity.
  - now destruct m.
  - rewrite IH. now destruct m.
  - apply IH.
Qed.

Lemma print_app s t tm : print (s ++ t) tm = print t (print s tm).
Proof. apply fold_left_app. Qed.

Lemma print_cons c s tm : print (c :: s) tm = print s (put_char tm c).
Proof. reflexivity. Qed.

(** Printing the same characters from the same column on two lines gives
    cells that agree wherever a character landed. *)
Lemma print_overlay s : forall t1 t2,
  cursor t1 = cursor t2 ->
  forall n,
    cell (line (print s t1)) n = cell (line (print s t2)) n \/
    (cell (line (print s t1)) n = cell (line t1) n /\
     cell (line (print s t2)) n = cell (line t2) n).
Proof.
  induction s as [|c s IH]; intros [l1 c1] [l2 c2] Hc n.
  - right. split; reflexivity.
  - cbn [cursor] in Hc. subst c2.
    rewrite !print_cons. unfold put_char. cbn [line cursor].
    destruct (Ascii.eqb c Py.cr).
    + apply (IH (mkTerminal l1 0) (mkTerminal l2 0)); reflexivity.
    + destruct (Ascii.eqb c Py.newline).
      * now left.
      * destruct (IH (mkTerminal (put_at c1 c l1) (S c1))
                     (mkTerminal (put_at c1 c l2) (S c1)) eq_refl n)
          as [H|[H1 H2]].
        -- now left.
        -- cbn [line] in H1, H2. rewrite cell_put_at in H1, H2.
           destruct (Nat.eqb n c1).
           ++ left. now rewrite H1, H2.
           ++ right. now split.
Qed.

(** Printing carriage returns and spaces blanks cells or leaves them. *)
Lemma print_erasing s : forall tm,
  Forall (fun c => c = Py.cr \/ c = Py.space) s ->
  forall n,
    cell (line (print s tm)) n = Py.space \/
    cell (line (print s tm)) n = cell (line tm) n.
Proof.
  induction s as [|c s IH]; intros tm Hs n.
  - now right.
  - inversion Hs as [|? ? Hc Hs']; subst. rewrite print_cons.
    destruct (IH (put_char tm c) Hs' n) as [H|H]; [now left|].
    rewrite H. destruct Hc as [-> | ->].
    + now right.
    + change (put_char tm Py.space)
        with (mkTerminal (put_at (cursor tm) Py.space (line tm)) (S (cursor tm))).
      cbn [line]. rewrite cell_put_at.
      destruct (Nat.eqb n (cursor tm)); [now left | now right].
Qed.

Lemma print_ends_with_cr s tm : cursor (print (s ++ [Py.cr]) tm) = O.
Proof. rewrite print_app. reflexivity. Qed.

Lemma spaces_erasing n :
  Forall (fun c => c = Py.cr \/ c = Py.space) (Py.spaces n).
Proof. unfold Py.spaces. apply Forall_forall. intros c Hc. right. now apply repeat_spec in Hc. Qed.

Lemma interrupt_output d :
  exists s, snd (interrupt d) = s ++ [Py.cr] /\
            Forall (fun c => c = Py.cr \/ c = Py.space) (s ++ [Py.cr]).
Proof.
  unfold interrupt. destruct (active d); cbn [snd].
  - exists (Py.cr :: Py.spaces (last_length d)). split; [reflexivity|].
    cbn. constructor; [now left|]. apply Forall_app. split; [apply spaces_erasing|].
    constructor; [now left | constructor].
  - exists []. split; [reflexivity|]. constructor; [now left | constructor].
Qed.

Lemma interrupt_keeps_text d :
  last_text (fst (interrupt d)) = last_text d /\
  last_length (fst (interrupt d)) = last_length d.
Proof. unfold interrupt. destruct (active d); split; reflexivity. Qed.

Lemma restore_keeps_text d :
  last_text (fst (restore d)) = last_text d /\
  last_length (fst (restore d)) = last_length d.
Proof.
  unfold restore. destruct (last_text d) eqn:E; cbn; rewrite ?E; split; reflexivity.
Qed.

Lemma restore_output d :
  consistent d ->
  snd (restore d) = match last_text d with
                    | [] => []
                    | _ :: _ => Py.cr :: last_text d
                    end.
Proof.
  intros Hc. unfold restore. destruct (last_text d) eqn:E; [reflexivity|].
  cbn [snd]. rewrite consistent_no_pad by exact Hc. now rewrite app_nil_r.
Qed.

(** C5. In every state, [interrupt()] followed by [restore()] leaves
    [current_text] and [displayed_length] as they were, and the display is
    active afterwards exactly when there is remembered text. For the
    terminal line, take a state whose [displayed_length] is the length of
    its text (as in every state the object goes through): if the line
    showed that text, every cell is what it was; if the line was blank, it
    shows the text afterwards. *)
Theorem interrupt_then_restore (d : StatusDisplay) (t : Terminal) :
  let d1 := fst (interrupt d) in
  let d2 := fst (restore d1) in
  let written := snd (interrupt d) ++ snd (restore d1) in
  last_text d2 = last_text d /\
  last_length d2 = last_length d /\
  (active d2 = true <-> last_text d <> []) /\
  (consistent d -> shows t (last_text d) -> same_line (print written t) t) /\
  (consistent d -> same_line t blank_line ->
   shows (print written t) (last_text d)).
Proof.
  cbn zeta.
  destruct (interrupt_keeps_text d) as [Ht1 Hl1].
  destruct (restore_keeps_text (fst (interrupt d))) as [Ht2 Hl2].
  split; [congruence|]. split; [congruence|]. split.
  { unfold restore. rewrite Ht1.
    assert (Ha : active (fst (interrupt d)) = false)
      by (unfold interrupt; destruct (active d) eqn:E; [reflexivity | exact E]).
    destruct (last_text d) as [|c text]; cbn [fst active].
    - rewrite Ha. split; [discriminate | intros H; now elim H].
    - split; [discriminate | reflexivity]. }
  assert (Hout : consistent d ->
    snd (restore (fst (interrupt d))) =
      match last_text d with [] => [] | _ :: _ => Py.cr :: last_text d end).
  { intros Hc.
    assert (Hc1 : consistent (fst (interrupt d)))
      by (unfold consistent; now rewrite Ht1, Hl1).
    now rewrite (restore_output _ Hc1), Ht1. }
  destruct (interrupt_output d) as [s [Hs Herase]]. rewrite Hs.
  pose proof (print_ends_with_cr s t) as Hcur.
  split.
  - intros Hc Hshow. rewrite (Hout Hc).
    rewrite print_app. intros n.
    pose proof (print_erasing _ t Herase n) as He.
    unfold shows, same_line in Hshow.
    destruct (last_text d) as [|c text] eqn:Etext.
    + cbn [print fold_left].
      destruct He as [He|He]; [|exact He].
      rewrite He, (Hshow n). exact (eq_sym (cell_nil n)).
    + destruct (print_overlay (Py.cr :: c :: text)
                  (print (s ++ [Py.cr]) t) blank_line Hcur n) as [H|[H1 H2]].
      * now rewrite H, <- Hshow.
      * rewrite H1. rewrite (Hshow n), H2.
        destruct He as [He|He]; [|now rewrite He, (Hshow n), H2].
        rewrite He. exact (eq_sym (cell_nil n)).
  - intros Hc Hblank. rewrite (Hout Hc).
    rewrite print_app. intros n.
    assert (Hb : forall m, cell (line (print (s ++ [Py.cr]) t)) m = Py.space).
    { intros m. destruct (print_erasing _ t Herase m) as [He|He]; [exact He|].
      rewrite He, (Hblank m). exact (cell_nil m). }
    destruct (last_text d) as [|c text] eqn:Etext.
    + cbn [print fold_left]. rewrite Hb. exact (eq_sym (cell_nil n)).
    + destruct (print_overlay (Py.cr :: c :: text)
                  (print (s ++ [Py.cr]) t) blank_line Hcur n) as [H|[H1 H2]].
      * exact H.
      * rewrite H1, H2, Hb. exact (eq_sym (cell_nil n)).
Qed.

Lemma interrupt_then_restore_witness :
  let d := fst (write (Some 80) (Some (Py.of_string "X=1.000 Y=2.000")) (init None)) in
  let t := print (snd (write (Some 80) (Some (Py.of_string "X=1.000 Y=2.000")) (init None)))
             blank_line in
  consistent d /\
  shows t (last_text d) /\
  same_line
    (print (snd (interrupt d) ++ snd (restore (fst (interrupt d)))) t) t /\
  shows
    (print (snd (interrupt d) ++ snd (restore (fst (interrupt d)))) blank_line)
    (last_text d) /\
  active (fst (restore (fst (interrupt d)))) = true.
Proof.
  cbn zeta.
  assert (Hc : consistent
    (fst (write (Some 80) (Some (Py.of_string "X=1.000 Y=2.000")) (init None))))
    by reflexivity.
  assert (Hs : shows
    (print (snd (write (Some 80) (Some (Py.of_string "X=1.000 Y=2.000")) (init None)))
       blank_line)
    (last_text
       (fst (write (Some 80) (Some (Py.of_string "X=1.000 Y=2.000")) (init None)))))
    by (intros n; reflexivity).
  split; [exact Hc|]. split; [exact Hs|].
  split; [|split; [|reflexivity]].
  - exact (proj1 (proj2 (proj2 (proj2 (interrupt_then_restore _ _)))) Hc Hs).
  - exact (proj2 (proj2 (proj2 (proj2 (interrupt_then_restore _ _)))) Hc
             (fun n => eq_refl)).
Defined.

(** The state after [write("abc")] and [interrupt()] on a fresh line: the
    line is blank and the text is remembered. A further [interrupt()] and
    [restore()] puts the text on the line, which is then not what it was. *)
Lemma interrupt_then_restore_changes_blank_line :
  let d0 := fst (write (Some 80) (Some (Py.of_string "abc")) (init None)) in
  let d := fst (interrupt d0) in
  let t := print (snd (write (Some 80) (Some (Py.of_string "abc")) (init None))
                  ++ snd (interrupt d0))
             blank_line in
  let t' := print (snd (interrupt d) ++ snd (restore (fst (interrupt d)))) t in
  reachable d /\
  consistent d /\
  last_text d = Py.of_string "abc" /\
  same_line t blank_line /\
  shows t' (Py.of_string "abc") /\
  ~ same_line t' t.
Proof.
  cbn zeta. split; [|split; [reflexivity|split; [reflexivity|split; [|split]]]].
  - exact (reachable_call CallInterrupt _
             (reachable_call (CallWrite (Some 80) (Some (Py.of_string "abc"))) _
                (reachable_init None))).
  - intros n. do 4 (try destruct n as [|n]); reflexivity.
  - intros n. reflexivity.
  - intros H. specialize (H O). discriminate H.
Qed.

(** ** [StatusAwareStreamHandler.emit] *)

(** C4. Whatever [StreamHandler.emit] writes and whether it returns or
    raises, [emit] first runs [interrupt], then the emission, then
    [restore]: the display ends in the state [restore] gives after
    [interrupt], the output carries what the three wrote in that order, and
    the outcome of the emission (its exception, if any) is passed on. *)
Theorem emit_brackets_emission
    (LogRecord : Type) (stream_emit : LogRecord -> Outcome unit * Py.str)
    (record : LogRecord) (w : World) :
  let d1 := fst (interrupt (display w)) in
  let d2 := fst (restore d1) in
  emit LogRecord stream_emit record w =
    (fst (stream_emit record),
     {| display := d2;
        stdout := stdout w ++ snd (interrupt (display w))
                    ++ snd (stream_emit record) ++ snd (restore d1) |}).
Proof.
  cbn zeta. unfold emit, bind, try_finally, on_display, super_emit.
  destruct (interrupt (display w)) as [d1 w1].
  destruct (stream_emit record) as [o written]. cbn [display stdout fst snd].
  destruct (restore d1) as [d2 w2]. cbn [fst snd].
  rewrite <- !app_assoc.
  destruct o as [[]|e]; reflexivity.
Qed.

(** ** [_format_status] *)

Lemma Returned_eq {A : Type} (a b : A) : Returned a = Returned b -> a = b.
Proof. intros H. now injection H. Qed.

Lemma in_status_attrs (name : string) :
  In name ["Buttons"; "TimeStamp"; "X"; "Y"; "Z"; "A"; "B"; "C"]%string ->
  In name status_attrs.
Proof. intros H. unfold status_attrs. apply in_or_app. now left. Qed.

Lemma angle_in_status_attrs (idx : nat) :
  In idx (seq 1 7) -> In (angle_attr idx) status_attrs.
Proof.
  intros H. unfold status_attrs. apply in_or_app. right. now apply in_map.
Qed.

Section FormatStatus.

Variable Obj : Type.
Variable float_of : Obj -> Outcome PrimFloat.float.
Variable str_outcome : Obj -> Outcome Py.str.
Variable format_f : nat -> nat -> PrimFloat.float -> Py.str.

Lemma safe_float_returns (value : Value Obj) :
  safe_float Obj float_of format_f value =
    Returned (shown7 Obj float_of format_f value).
Proof.
  unfold safe_float, shown7, try_except, obind.
  destruct (py_float Obj float_of value) as [x|[| |name]]; reflexivity.
Qed.

Lemma angle_step_cases (update : Payload Obj) (angles : list Py.str) (idx : nat) :
  angle_step Obj float_of format_f update angles idx =
    match attribute Obj update (angle_attr idx) with
    | Missing => Returned angles
    | Holds v => Returned (angles ++ [shown5 Obj float_of format_f v])
    | ReadRaises e => Raised e
    end.
Proof.
  unfold angle_step, has_attr, read_attr_strict, shown5, try_except, obind.
  destruct (attribute Obj update (angle_attr idx)) as [|v|e]; try reflexivity.
  destruct (py_float Obj float_of v) as [x|[| |name]]; reflexivity.
Qed.

Lemma angle_loop_shown (update : Payload Obj) (idxs : list nat) :
  (forall idx e, In idx idxs ->
                 attribute Obj update (angle_attr idx) <> ReadRaises e) ->
  forall angles,
    angle_loop Obj float_of format_f update idxs angles =
      Returned (angles ++ shown_angles Obj float_of format_f update idxs).
Proof.
  induction idxs as [|idx rest IH]; intros Hread angles;
    cbn [angle_loop shown_angles flat_map].
  - now rewrite app_nil_r.
  - rewrite angle_step_cases.
    assert (Hrest : forall idx e, In idx rest ->
              attribute Obj update (angle_attr idx) <> ReadRaises e)
      by (intros i e Hi; apply Hread; now right).
    destruct (attribute Obj update (angle_attr idx)) as [|v|e] eqn:E;
      cbn [obind app].
    + now apply IH.
    + rewrite (IH Hrest), <- app_assoc. reflexivity.
    + elim (Hread idx e); [now left | exact E].
Qed.

(** A loop over the angles that returns met no raising read. *)
Lemma angle_loop_reads (update : Payload Obj) (idxs : list nat) :
  forall angles shown,
    angle_loop Obj float_of format_f update idxs angles = Returned shown ->
    forall idx e, In idx idxs ->
                  attribute Obj update (angle_attr idx) <> ReadRaises e.
Proof.
  induction idxs as [|idx rest IH]; intros angles shown H i e Hi;
    [destruct Hi|].
  cbn [angle_loop] in H. rewrite angle_step_cases in H.
  destruct Hi as [<-|Hi].
  - intros E. rewrite E in H. discriminate H.
  - destruct (attribute Obj update (angle_attr idx)) as [|v|e'];
      cbn [obind] in H; [| |discriminate H]; exact (IH _ _ H i e Hi).
Qed.

Lemma read_attr_returns (update : Payload Obj) (name : string) :
  (forall e, attribute Obj update name <> ReadRaises e) ->
  read_attr Obj update name PyNone = Returned (value_or_none Obj update name).
Proof.
  intros Hread. unfold read_attr, value_or_none.
  destruct (attribute Obj update name) as [|v|e] eqn:E; try reflexivity.
  now elim (Hread e).
Qed.

Lemma read_attr_reads (update : Payload Obj) (name : string) (v : Value Obj) :
  read_attr Obj update name PyNone = Returned v ->
  forall e, attribute Obj update name <> ReadRaises e.
Proof.
  unfold read_attr. intros H e E. rewrite E in H. discriminate H.
Qed.

(** With reads that do not raise and values that print, the whole line. *)
Lemma format_status_line (str_of : Obj -> Py.str)
    (self : StatsOf PrimFloat.float Obj) (update : Payload Obj)
    (dt : option PrimFloat.float) (uptime : PrimFloat.float) :
  (forall name e, In name status_attrs ->
                  attribute Obj update name <> ReadRaises e) ->
  (forall name o, In name printed_attrs ->
                  attribute Obj update name = Holds (PyObj o) ->
                  str_outcome o = Returned (str_of o)) ->
  let field := fun name =>
    shown7 Obj float_of format_f (value_or_none Obj update name) in
  let angles := shown_angles Obj float_of format_f update (seq 1 7) in
  _format_status Obj float_of str_outcome format_f self update dt uptime =
    Returned
      (Py.slice_to 512
         (Py.replace_newlines
            (status_line
               (format_06d (update_count self))
               (rjust 10 match attribute Obj update "TimeStamp" with
                         | Holds v => py_str Obj str_of v
                         | _ => lit "-"
                         end)
               (field "X"%string) (field "Y"%string) (field "Z"%string)
               (field "A"%string) (field "B"%string) (field "C"%string)
               match angles with
               | [] => lit "n/a"
               | _ :: _ => join (lit ", ") angles
               end
               match value_or_none Obj update "Buttons" with
               | PyNone => lit "-"
               | PyObj o => str_of o
               end
               (dt_ms format_f dt)
               (avg_hz Obj format_f self)
               (format_f 6%nat 1%nat uptime)))).
Proof.
  intros Hread Hstr. cbn zeta.
  assert (Hr : forall name,
            In name ["Buttons"; "TimeStamp"; "X"; "Y"; "Z"; "A"; "B"; "C"]%string ->
            read_attr Obj update name PyNone
              = Returned (value_or_none Obj update name)).
  { intros name Hin. apply read_attr_returns. intros e.
    apply Hread. now apply in_status_attrs. }
  unfold _format_status. cbn zeta.
  rewrite Hr by (cbn; tauto). cbn [obind].
  assert (Hb :
    match value_or_none Obj update "Buttons" with
    | PyNone => Returned (lit "-")
    | PyObj _ =>
        str_value Obj str_outcome (value_or_none Obj update "Buttons")
    end
    = Returned match value_or_none Obj update "Buttons" with
               | PyNone => lit "-"
               | PyObj o => str_of o
               end).
  { unfold value_or_none.
    destruct (attribute Obj update "Buttons") as [|[|o]|e] eqn:E;
      try reflexivity.
    cbn [str_value]. apply (Hstr "Buttons"%string); [now left | exact E]. }
  rewrite Hb. cbn [obind].
  rewrite (angle_loop_shown update (seq 1 7)
             (fun idx e Hin => Hread _ e (angle_in_status_attrs idx Hin)) []).
  cbn [obind app].
  assert (Ht :
    match attribute Obj update "TimeStamp" with
    | Missing => Returned (lit "-")
    | Holds v => str_value Obj str_outcome v
    | ReadRaises e => Raised e
    end
    = Returned match attribute Obj update "TimeStamp" with
               | Holds v => py_str Obj str_of v
               | _ => lit "-"
               end).
  { destruct (attribute Obj update "TimeStamp") as [|[|o]|e] eqn:E;
      try reflexivity.
    - cbn [str_value py_str].
      now rewrite (Hstr "TimeStamp"%string o) by (cbn; tauto).
    - elim (Hread "TimeStamp"%string e);
        [apply in_status_attrs; cbn; tauto | exact E]. }
  rewrite Ht. cbn [obind].
  repeat (rewrite Hr by (cbn; tauto); cbn [obind];
          rewrite safe_float_returns; cbn [obind]).
  reflexivity.
Qed.

(** Whatever [_format_status] returns went through the replacement of
    newlines and the cut at 512 characters. *)
Lemma format_status_shape (self : StatsOf PrimFloat.float Obj)
    (update : Payload Obj) (dt : option PrimFloat.float)
    (uptime : PrimFloat.float) (text : Py.str) :
  _format_status Obj float_of str_outcome format_f self update dt uptime
    = Returned text ->
  exists s, text = Py.slice_to 512 (Py.replace_newlines s).
Proof.
  unfold _format_status. cbn zeta.
  repeat match goal with
         | |- obind ?m _ = _ -> _ =>
             destruct m; cbn [obind]; [|discriminate]
         end.
  intros H. apply Returned_eq in H. subst text. eexists. reflexivity.
Qed.

(** A call of [_format_status] that returns met no raising read, and
    [str] printed [Buttons] and [TimeStamp]. *)
Lemma format_status_reads (self : StatsOf PrimFloat.float Obj)
    (update : Payload Obj) (dt : option PrimFloat.float)
    (uptime : PrimFloat.float) (text : Py.str) :
  _format_status Obj float_of str_outcome format_f self update dt uptime
    = Returned text ->
  (forall name e, In name status_attrs ->
                  attribute Obj update name <> ReadRaises e) /\
  (forall name o, In name printed_attrs ->
                  attribute Obj update name = Holds (PyObj o) ->
                  exists s, str_outcome o = Returned s).
Proof.
  unfold _format_status. cbn zeta.
  destruct (read_attr Obj update "Buttons" PyNone) as [buttons|] eqn:EB;
    cbn [obind]; [|discriminate].
  destruct (match buttons with
            | PyNone => Returned (lit "-")
            | PyObj _ => str_value Obj str_outcome buttons
            end) as [shown|] eqn:ES; cbn [obind]; [|discriminate].
  destruct (angle_loop Obj float_of format_f update (seq 1 7) [])
    as [angles|] eqn:EA; cbn [obind]; [|discriminate].
  destruct (match attribute Obj update "TimeStamp" with
            | Missing => Returned (lit "-")
            | Holds v => str_value Obj str_outcome v
            | ReadRaises e => Raised e
            end) as [ts|] eqn:ET; cbn [obind]; [|discriminate].
  destruct (read_attr Obj update "X" PyNone) as [vx|] eqn:EX;
    cbn [obind]; [|discriminate].
  rewrite safe_float_returns. cbn [obind].
  destruct (read_attr Obj update "Y" PyNone) as [vy|] eqn:EY;
    cbn [obind]; [|discriminate].
  rewrite safe_float_returns. cbn [obind].
  destruct (read_attr Obj update "Z" PyNone) as [vz|] eqn:EZ;
    cbn [obind]; [|discriminate].
  rewrite safe_float_returns. cbn [obind].
  destruct (read_attr Obj update "A" PyNone) as [va|] eqn:EA';
    cbn [obind]; [|discriminate].
  rewrite safe_float_returns. cbn [obind].
  destruct (read_attr Obj update "B" PyNone) as [vb|] eqn:EB';
    cbn [obind]; [|discriminate].
  rewrite safe_float_returns. cbn [obind].
  destruct (read_attr Obj update "C" PyNone) as [vc|] eqn:EC;
    cbn [obind]; [|discriminate].
  rewrite safe_float_returns. cbn [obind].
  intros _. split.
  - intros name e Hin. unfold status_attrs in Hin.
    apply in_app_or in Hin. destruct Hin as [Hin|Hin].
    + cbn [In] in Hin.
      destruct Hin as [<-|[<-|[<-|[<-|[<-|[<-|[<-|[<-|[]]]]]]]]];
        try (eapply read_attr_reads; eassumption).
      intros E. rewrite E in ET. discriminate ET.
    + apply in_map_iff in Hin. destruct Hin as [idx [<- Hidx]].
      exact (angle_loop_reads update (seq 1 7) [] angles EA idx e Hidx).
  - intros name o Hin E. cbn [printed_attrs In] in Hin.
    destruct Hin as [<-|[<-|[]]].
    + unfold read_attr in EB. rewrite E in EB.
      apply Returned_eq in EB. subst buttons.
      cbn [str_value] in ES. now exists shown.
    + rewrite E in ET. cbn [str_value] in ET. now exists ts.
Qed.

End FormatStatus.

(** C7. [_format_status] reads [Buttons], [TimeStamp], the six position
    and orientation fields and the seven joint angles of the payload, and
    prints [Buttons] and [TimeStamp] with [str]. When none of these reads
    raises and [str] prints the two values, it returns the complete line,
    cut at 512 characters: the count, the time stamp, the six fields, the
    joint angles, the buttons, the latency, the rate and the uptime. A
    position or orientation field shows the formatted number, the
    7-character "n/a" placeholder when [float] raises [TypeError] or
    [ValueError] (an absent field is [None], hence [TypeError]), and the
    7-character "err" placeholder when it raises anything else. A joint
    angle that is present shows the same way with 5-character placeholders;
    one that is absent is left out, and the group reads "n/a" when none is
    present. When one of the reads raises, or [str] raises on [Buttons] or
    [TimeStamp], [_format_status] raises. [safe_float] itself returns for
    every value, and a round of the loop over the angles raises only when
    the read does. *)
Theorem format_status_renders_placeholders
    (Obj : Type) (float_of : Obj -> Outcome PrimFloat.float)
    (str_outcome : Obj -> Outcome Py.str) (str_of : Obj -> Py.str)
    (format_f : nat -> nat -> PrimFloat.float -> Py.str)
    (self : StatsOf PrimFloat.float Obj) (update : Payload Obj)
    (dt : option PrimFloat.float) (uptime : PrimFloat.float) :
  let field := fun name =>
    match py_float Obj float_of (value_or_none Obj update name) with
    | Returned x => format_f 8%nat 3%nat x
    | Raised TypeError => na7
    | Raised ValueError => na7
    | Raised (OtherException _) => err7
    end in
  let angle := fun idx =>
    match attribute Obj update (angle_attr idx) with
    | Holds v =>
        [match py_float Obj float_of v with
         | Returned x => format_f 6%nat 2%nat x
         | Raised TypeError => na5
         | Raised ValueError => na5
         | Raised (OtherException _) => err5
         end]
    | _ => []
    end in
  let angles := flat_map angle (seq 1 7) in
  let formatted :=
    _format_status Obj float_of str_outcome format_f self update dt uptime in
  ((forall name e, In name status_attrs ->
                   attribute Obj update name <> ReadRaises e) ->
   (forall name o, In name printed_attrs ->
                   attribute Obj update name = Holds (PyObj o) ->
                   str_outcome o = Returned (str_of o)) ->
   formatted =
     Returned
       (Py.slice_to 512
          (Py.replace_newlines
             (status_line
                (format_06d (update_count self))
                (rjust 10 match attribute Obj update "TimeStamp" with
                          | Holds v => py_str Obj str_of v
                          | _ => lit "-"
                          end)
                (field "X"%string) (field "Y"%string) (field "Z"%string)
                (field "A"%string) (field "B"%string) (field "C"%string)
                match angles with
                | [] => lit "n/a"
                | _ :: _ => join (lit ", ") angles
                end
                match value_or_none Obj update "Buttons" with
                | PyNone => lit "-"
                | PyObj o => str_of o
                end
                (dt_ms format_f dt)
                (avg_hz Obj format_f self)
                (format_f 6%nat 1%nat uptime))))) /\
  (forall name e, In name status_attrs ->
                  attribute Obj update name = ReadRaises e ->
                  exists e', formatted = Raised e') /\
  (forall name o e, In name printed_attrs ->
                    attribute Obj update name = Holds (PyObj o) ->
                    str_outcome o = Raised e ->
                    exists e', formatted = Raised e') /\
  (forall value,
     safe_float Obj float_of format_f value =
       Returned match py_float Obj float_of value with
                | Returned x => format_f 8%nat 3%nat x
                | Raised TypeError => na7
                | Raised ValueError => na7
                | Raised (OtherException _) => err7
                end) /\
  (forall shown idx,
     angle_step Obj float_of format_f update shown idx =
       match attribute Obj update (angle_attr idx) with
       | ReadRaises e => Raised e
       | _ => Returned (shown ++ angle idx)
       end) /\
  (Py.len na7 = 7 /\ Py.len err7 = 7 /\ Py.len na5 = 5 /\ Py.len err5 = 5).
Proof.
  cbn zeta.
  split; [|split; [|split; [|split; [|split]]]].
  - intros Hread Hstr.
    exact (format_status_line Obj float_of str_outcome format_f str_of
             self update dt uptime Hread Hstr).
  - intros name e Hin E.
    destruct (_format_status Obj float_of str_outcome format_f
                self update dt uptime) as [text|e'] eqn:F;
      [|now exists e'].
    destruct (format_status_reads Obj float_of str_outcome format_f
                self update dt uptime text F) as [Hread _].
    now elim (Hread name e Hin).
  - intros name o e Hin E Hraise.
    destruct (_format_status Obj float_of str_outcome format_f
                self update dt uptime) as [text|e'] eqn:F;
      [|now exists e'].
    destruct (format_status_reads Obj float_of str_outcome format_f
                self update dt uptime text F) as [_ Hstr].
    destruct (Hstr name o Hin E) as [s Hs]. rewrite Hs in Hraise.
    discriminate Hraise.
  - intros value. apply safe_float_returns.
  - intros shown idx. rewrite angle_step_cases.
    destruct (attribute Obj update (angle_attr idx)) as [|v|e];
      [now rewrite app_nil_r | reflexivity | reflexivity].
  - repeat split; reflexivity.
Qed.

Lemma format_status_renders_placeholders_witness :
  _format_status Demo.Obj Demo.float_of Demo.str_outcome Demo.format_f
    (mkStats 1 PyNone (Some (Demo.float_of_Z 3)) None (Demo.float_of_Z 0))
    Demo.update1 None (Demo.float_of_Z 3)
  = Returned (Py.of_string
      "#000001 | ts=         - | XYZ=(      12,    n/a ,    err ) | ABC=(   n/a ,    n/a ,    n/a ) | Angles=(  n/a) | Buttons=- | dt=   ---  | avg=--.-Hz | uptime=     3s")
  /\
  exists e,
    _format_status Demo.Obj Demo.float_of Demo.str_outcome Demo.format_f
      (mkStats 1 PyNone (Some (Demo.float_of_Z 3)) None (Demo.float_of_Z 0))
      Demo.broken_update None (Demo.float_of_Z 3)
    = Raised e.
Proof.
  split.
  - refine (eq_trans (proj1
      (format_status_renders_placeholders Demo.Obj Demo.float_of
         Demo.str_outcome Demo.str_of Demo.format_f
         (mkStats 1 PyNone (Some (Demo.float_of_Z 3)) None (Demo.float_of_Z 0))
         Demo.update1 None (Demo.float_of_Z 3)) _ _) _).
    + intros name e _. unfold Demo.update1. cbn [attribute].
      repeat match goal with
             | |- context [String.eqb name ?s] => destruct (String.eqb name s)
             end; discriminate.
    + intros name o _ _. reflexivity.
    + vm_compute. reflexivity.
  - refine (proj1 (proj2
      (format_status_renders_placeholders Demo.Obj Demo.float_of
         Demo.str_outcome Demo.str_of Demo.format_f
         (mkStats 1 PyNone (Some (Demo.float_of_Z 3)) None (Demo.float_of_Z 0))
         Demo.broken_update None (Demo.float_of_Z 3)))
      "Buttons"%string (OtherException "InvalidOperationException") _ _).
    + apply in_status_attrs. now left.
    + reflexivity.
Defined.

(** A payload whose [Buttons] property raises when read: the exception
    leaves [_format_status], and no status line is returned. And a payload
    with [Angle2] only: the loop over the seven joint angles gives one
    entry, the six absent angles get no placeholder. *)
Lemma format_status_raises_on_failing_read :
  _format_status Demo.Obj Demo.float_of Demo.str_outcome Demo.format_f
    (mkStats 1 PyNone (Some (Demo.float_of_Z 3)) None (Demo.float_of_Z 0))
    Demo.broken_update None (Demo.float_of_Z 3)
  = Raised (OtherException "InvalidOperationException") /\
  angle_loop Demo.Obj Demo.float_of Demo.format_f Demo.update1 (seq 1 7) []
  = Returned [na5].
Proof. split; vm_compute; reflexivity. Qed.

(** ** Clock readings *)

Lemma Qltb_lt (x y : Q) : Qltb x y = true <-> (x < y)%Q.
Proof.
  unfold Qltb. rewrite negb_true_iff, <- not_true_iff_false, Qle_bool_iff.
  split; [apply Qnot_le_lt | apply Qlt_not_le].
Qed.

Lemma Qltb_ge (x y : Q) : Qltb x y = false <-> (y <= x)%Q.
Proof.
  unfold Qltb. rewrite negb_false_iff. apply Qle_bool_iff.
Qed.

(** ** The update callback *)

Section Handler.

Variable Obj : Type.
Variable float_of : Obj -> Outcome PrimFloat.float.
Variable str_outcome : Obj -> Outcome Py.str.
Variable obj_eqb : Obj -> Obj -> bool.
Variable format_f : nat -> nat -> PrimFloat.float -> Py.str.

Let run := handler Obj float_of str_outcome obj_eqb format_f.

(** The fields set before the status text is formatted. *)
Lemma handler_timing (now : PrimFloat.float) (update : Payload Obj)
    (self : StatsOf PrimFloat.float Obj) :
  update_count (stats_after Obj (run now update self)) = update_count self + 1 /\
  last_receive_time (stats_after Obj (run now update self)) = Some now /\
  start_time (stats_after Obj (run now update self)) = start_time self /\
  avg_period (stats_after Obj (run now update self)) =
    match last_receive_time self with
    | Some last =>
        Some match avg_period self with
             | None => PrimFloat.sub now last
             | Some p =>
                 PrimFloat.add (PrimFloat.mul F64.nine_tenths p)
                   (PrimFloat.mul F64.one_tenth (PrimFloat.sub now last))
             end
    | None => avg_period self
    end.
Proof.
  unfold run, handler.
  destruct (last_receive_time self) as [last|];
    destruct (_format_status _ _ _ _ _ _ _ _);
    try destruct (update_count self + 1 =? 1);
    try destruct (dir Obj update); cbn [obind];
    try destruct (read_attr Obj update "Buttons" PyNone);
    try destruct (value_neq _ _ _ _); cbn; repeat split; reflexivity.
Qed.

End Handler.

(** In binary64, 0.9 times 1.0 plus 0.1 times 1.0 is 1.0. *)
Lemma smoothing_at_one :
  PrimFloat.add (PrimFloat.mul F64.nine_tenths F64.one)
                (PrimFloat.mul F64.one_tenth F64.one) = F64.one.
Proof. reflexivity. Qed.

(** C8. The clock readings and the period are binary64 numbers and the
    arithmetic is the processor's. A callback run when a previous receive
    time exists sets [smoothed_period] to [dt = now - last_receive_time] if
    it was absent, and otherwise to the sum of the products of 0.9 with its
    value and of 0.1 with [dt]; the first callback leaves it as it is. This
    holds whether or not the rest of the callback raises. With four updates
    whose readings are each 1.0 after the one before, starting from a new
    listener, the period is absent after the first update and is 1.0 after
    the second, the third and the fourth: it stays at its first value,
    1.0. *)
Theorem handler_smooths_period
    (Obj : Type) (float_of : Obj -> Outcome PrimFloat.float)
    (str_outcome : Obj -> Outcome Py.str)
    (obj_eqb : Obj -> Obj -> bool)
    (format_f : nat -> nat -> PrimFloat.float -> Py.str)
    (now : PrimFloat.float) (update : Payload Obj)
    (self : StatsOf PrimFloat.float Obj) :
  let run := handler Obj float_of str_outcome obj_eqb format_f in
  let after := stats_after Obj (run now update self) in
  avg_period after =
    match last_receive_time self with
    | Some last =>
        let dt := PrimFloat.sub now last in
        Some match avg_period self with
             | None => dt
             | Some p =>
                 PrimFloat.add (PrimFloat.mul F64.nine_tenths p)
                               (PrimFloat.mul F64.one_tenth dt)
             end
    | None => avg_period self
    end /\
  last_receive_time after = Some now /\
  (forall (t0 t1 t2 t3 start : PrimFloat.float) (u0 u1 u2 u3 : Payload Obj),
     PrimFloat.sub t1 t0 = F64.one ->
     PrimFloat.sub t2 t1 = F64.one ->
     PrimFloat.sub t3 t2 = F64.one ->
     let feed := deliver Obj float_of str_outcome obj_eqb format_f in
     avg_period (feed [(t0, u0)] (new_stats Obj start)) = None /\
     avg_period (feed [(t0, u0); (t1, u1)] (new_stats Obj start))
       = Some F64.one /\
     avg_period (feed [(t0, u0); (t1, u1); (t2, u2)] (new_stats Obj start))
       = Some F64.one /\
     avg_period (feed [(t0, u0); (t1, u1); (t2, u2); (t3, u3)]
                   (new_stats Obj start))
       = Some F64.one).
Proof.
  cbn zeta.
  destruct (handler_timing Obj float_of str_outcome obj_eqb format_f
              now update self) as [_ [Hrecv [_ Havg]]].
  split; [exact Havg|]. split; [exact Hrecv|].
  intros t0 t1 t2 t3 start u0 u1 u2 u3 H1 H2 H3. cbn [deliver].
  set (h := handler Obj float_of str_outcome obj_eqb format_f).
  pose proof (handler_timing Obj float_of str_outcome obj_eqb format_f) as T.
  fold h in T.
  destruct (T t0 u0 (new_stats Obj start)) as [_ [R0 [_ A0]]].
  cbn [new_stats last_receive_time avg_period] in A0.
  split; [exact A0|].
  set (s0 := stats_after Obj (h t0 u0 (new_stats Obj start))) in *.
  destruct (T t1 u1 s0) as [_ [R1 [_ A1]]].
  rewrite R0, A0, H1 in A1.
  set (s1 := stats_after Obj (h t1 u1 s0)) in *.
  destruct (T t2 u2 s1) as [_ [R2 [_ A2]]].
  rewrite R1, A1, H2, smoothing_at_one in A2.
  set (s2 := stats_after Obj (h t2 u2 s1)) in *.
  destruct (T t3 u3 s2) as [_ [_ [_ A3]]].
  rewrite R2, A2, H3, smoothing_at_one in A3.
  split; [exact A1|]. split; [exact A2 | exact A3].
Qed.

Lemma handler_smooths_period_witness :
  let feed := deliver Demo.Obj Demo.float_of Demo.str_outcome Demo.obj_eqb
                Demo.format_f in
  let t := fun n => Demo.float_of_Z n in
  PrimFloat.sub (t 101) (t 100) = F64.one /\
  PrimFloat.sub (t 102) (t 101) = F64.one /\
  PrimFloat.sub (t 103) (t 102) = F64.one /\
  avg_period
    (feed [(t 100, Demo.empty_update); (t 101, Demo.update1);
           (t 102, Demo.broken_update); (t 103, Demo.update1)]
       (new_stats Demo.Obj (t 99)))
  = Some F64.one.
Proof.
  cbn zeta.
  assert (H1 : PrimFloat.sub (Demo.float_of_Z 101) (Demo.float_of_Z 100)
               = F64.one) by reflexivity.
  assert (H2 : PrimFloat.sub (Demo.float_of_Z 102) (Demo.float_of_Z 101)
               = F64.one) by reflexivity.
  assert (H3 : PrimFloat.sub (Demo.float_of_Z 103) (Demo.float_of_Z 102)
               = F64.one) by reflexivity.
  split; [exact H1|split; [exact H2|split; [exact H3|]]].
  exact (proj2 (proj2 (proj2
           (proj2 (proj2
              (handler_smooths_period Demo.Obj Demo.float_of
                 Demo.str_outcome Demo.obj_eqb Demo.format_f
                 (Demo.float_of_Z 11) Demo.update1
                 (new_stats Demo.Obj (Demo.float_of_Z 9))))
              (Demo.float_of_Z 100) (Demo.float_of_Z 101)
              (Demo.float_of_Z 102) (Demo.float_of_Z 103)
              (Demo.float_of_Z 99)
              Demo.empty_update Demo.update1 Demo.broken_update
              Demo.update1 H1 H2 H3)))).
Defined.

(** ** The watchdog *)

Section WatchdogTick.

Variable Obj : Type.

Let tick := monitor_tick Obj.

(** With no update counted and more than 2 seconds since the start, the
    tick is decided by the time since the last warning alone. *)
Lemma tick_silent (self : Stats Obj) (now : Q) (w : Watchdog) :
  update_count self = 0 ->
  (2 < now - start_time self)%Q ->
  tick self now w =
    if Qltb 5 (now - last_warning_time w)
    then ({| last_count := last_count w; last_warning_time := now |},
          Some (NoUpdatesWarning (now - start_time self)%Q))
    else (w, None).
Proof.
  intros Hc He. unfold tick, monitor_tick. rewrite Hc.
  apply Qltb_lt in He. rewrite He. reflexivity.
Qed.

(** Within the first 2 seconds the first branch is not taken. *)
Lemma tick_early (self : Stats Obj) (now : Q) (w : Watchdog) :
  (now - start_time self <= 2)%Q ->
  forall e, snd (tick self now w) <> Some (NoUpdatesWarning e).
Proof.
  intros He e. unfold tick, monitor_tick.
  apply Qltb_ge in He. rewrite He, andb_false_r.
  destruct (update_count self =? last_count w); [|discriminate].
  destruct (last_receive_time self) as [last|]; [|discriminate].
  destruct (Qltb 3 (now - last)); [|discriminate].
  destruct (Qltb 5 (now - last_warning_time w)); discriminate.
Qed.

(** With updates counted, the first branch is not taken. *)
Lemma tick_counting (self : Stats Obj) (now : Q) (w : Watchdog) :
  update_count self <> 0 ->
  tick self now w =
    if update_count self =? last_count w
    then
      match last_receive_time self with
      | Some last =>
          if Qltb 3 (now - last) && Qltb 5 (now - last_warning_time w)
          then ({| last_count := last_count w; last_warning_time := now |},
                Some (StalledWarning (now - last)%Q))
          else (w, None)
      | None => (w, None)
      end
    else ({| last_count := update_count self;
             last_warning_time := last_warning_time w |}, None).
Proof.
  intros Hc. unfold tick, monitor_tick.
  apply Z.eqb_neq in Hc. rewrite Hc. cbn [andb].
  destruct (update_count self =? last_count w); [|reflexivity].
  destruct (last_receive_time self) as [last|]; [|reflexivity].
  destruct (Qltb 3 (now - last)); reflexivity.
Qed.

End WatchdogTick.

(** C2, as the code has it. At a tick with [update_count] equal to 0, the
    "no updates received" warning is logged exactly when more than 2.0
    seconds have elapsed since [start_time] and more than 5.0 seconds
    (strictly) separate [now] from [last_warning_time]; [last_warning_time]
    then becomes [now], and otherwise stays. Hence a tick within 5.0 seconds
    of a warning logs no second one. The first such tick after the 2.0
    seconds warns when the clock reading itself is beyond 5.0, since
    [last_warning_time] starts at 0.0. *)
Theorem watchdog_no_updates
    (Obj : Type) (self : Stats Obj) (now : Q) (w : Watchdog) :
  update_count self = 0 ->
  let w' := fst (monitor_tick Obj self now w) in
  let warning := snd (monitor_tick Obj self now w) in
  ((exists e, warning = Some (NoUpdatesWarning e)) <->
     (2 < now - start_time self /\ 5 < now - last_warning_time w)%Q) /\
  ((exists e, warning = Some (NoUpdatesWarning e)) ->
     warning = Some (NoUpdatesWarning (now - start_time self)%Q) /\
     last_warning_time w' = now) /\
  (warning = None -> last_warning_time w' = last_warning_time w) /\
  (forall (later : Stats Obj) (now2 : Q),
     (exists e, warning = Some (NoUpdatesWarning e)) ->
     (now2 - now <= 5)%Q ->
     forall e, snd (monitor_tick Obj later now2 w') <> Some (NoUpdatesWarning e)) /\
  (w = new_watchdog -> (2 < now - start_time self)%Q -> (5 < now)%Q ->
     warning = Some (NoUpdatesWarning (now - start_time self)%Q)).
Proof.
  intros Hc. cbn zeta.
  assert (Hiff : (exists e, snd (monitor_tick Obj self now w)
                              = Some (NoUpdatesWarning e)) <->
                 (2 < now - start_time self /\ 5 < now - last_warning_time w)%Q).
  { split.
    - intros [e He].
      destruct (Qlt_le_dec 2 (now - start_time self)) as [H2|H2];
        [|now apply (tick_early Obj self now w H2) in He].
      split; [exact H2|].
      rewrite (tick_silent Obj self now w Hc H2) in He.
      destruct (Qltb 5 (now - last_warning_time w)) eqn:E; [|discriminate].
      now apply Qltb_lt.
    - intros [H2 H5]. rewrite (tick_silent Obj self now w Hc H2).
      apply Qltb_lt in H5. rewrite H5. eexists. reflexivity. }
  assert (Hset : (exists e, snd (monitor_tick Obj self now w)
                              = Some (NoUpdatesWarning e)) ->
                 snd (monitor_tick Obj self now w)
                   = Some (NoUpdatesWarning (now - start_time self)%Q) /\
                 last_warning_time (fst (monitor_tick Obj self now w)) = now).
  { intros Hw. apply Hiff in Hw. destruct Hw as [H2 H5].
    rewrite (tick_silent Obj self now w Hc H2).
    apply Qltb_lt in H5. rewrite H5. split; reflexivity. }
  split; [exact Hiff|]. split; [exact Hset|]. split; [|split].
  - unfold monitor_tick. rewrite Hc. change (0 =? 0) with true. cbn [andb].
    destruct (Qltb 2 (now - start_time self)).
    + destruct (Qltb 5 (now - last_warning_time w)); cbn [fst snd];
        [discriminate | reflexivity].
    + destruct (0 =? last_count w); [|reflexivity].
      destruct (last_receive_time self) as [last|]; [|reflexivity].
      destruct (Qltb 3 (now - last)); [|reflexivity].
      destruct (Qltb 5 (now - last_warning_time w)); cbn [fst snd];
        [discriminate | reflexivity].
  - intros later now2 Hw Hnear e He.
    destruct (Hset Hw) as [_ Hlw].
    destruct (Qlt_le_dec 2 (now2 - start_time later)) as [H2|H2];
      [|now apply (tick_early Obj later now2 _ H2) in He].
    unfold monitor_tick in He at 1.
    apply Qltb_lt in H2. rewrite H2, andb_true_r in He.
    rewrite Hlw in He.
    apply Qltb_ge in Hnear. rewrite Hnear in He.
    destruct (update_count later =? 0); [discriminate|].
    destruct (update_count later =? _); [|discriminate].
    destruct (last_receive_time later) as [last|]; [|discriminate].
    destruct (Qltb 3 (now2 - last)); discriminate.
  - intros -> H2 H5. rewrite (tick_silent Obj self now _ Hc H2).
    cbn [new_watchdog last_warning_time].
    assert (H : Qltb 5 (now - 0) = true) by (apply Qltb_lt; lra).
    now rewrite H.
Qed.

Lemma watchdog_no_updates_witness :
  let self := new_stats Demo.Obj 100%Q in
  update_count self = 0 /\
  snd (monitor_tick Demo.Obj self 103%Q new_watchdog)
    = Some (NoUpdatesWarning (103 - 100)%Q).
Proof.
  cbn zeta.
  assert (Hc : update_count (new_stats Demo.Obj 100%Q) = 0) by reflexivity.
  split; [exact Hc|].
  refine (proj2 (proj2 (proj2 (proj2
    (watchdog_no_updates Demo.Obj (new_stats Demo.Obj 100%Q) 103%Q
       new_watchdog Hc)))) eq_refl _ _); reflexivity.
Defined.

(** C2, as stated, fails at the boundary. A listener started at clock
    reading 1 with no update: the tick at 10 warns; at the tick at 15,
    exactly 5.0 seconds have passed since that warning and more than 2.0
    since the start, and no warning is logged. *)
Lemma no_warning_after_exactly_five_seconds :
  let self := new_stats Demo.Obj 1%Q in
  let first := monitor_tick Demo.Obj self 10%Q new_watchdog in
  let second := monitor_tick Demo.Obj self 15%Q (fst first) in
  update_count self = 0 /\
  snd first = Some (NoUpdatesWarning (10 - 1)%Q) /\
  last_warning_time (fst first) = 10%Q /\
  (2 < 15 - start_time self)%Q /\
  (5 <= 15 - last_warning_time (fst first))%Q /\
  snd second = None.
Proof. cbn zeta. repeat split; discriminate. Qed.

(** The loop on a silent listener started at clock reading 100, woken once
    a second: one warning at the first tick past 2 seconds, the next one at
    the first tick more than 5 seconds later. *)
Example monitor_updates_silent :
  _monitor_updates Demo.Obj
    (map (fun now => (now, new_stats Demo.Obj 100%Q))
         [101; 102; 103; 104; 105; 106; 107; 108; 109]%Q)
  = [None; None; Some (NoUpdatesWarning (103 - 100)%Q); None; None; None; None;
     None; Some (NoUpdatesWarning (109 - 100)%Q)].
Proof. reflexivity. Qed.

(** The same listener when the clock starts at 0: the tick at 3 is past the
    2 seconds and stays quiet, the first warning comes at 6. *)
Example monitor_updates_early_clock :
  _monitor_updates Demo.Obj
    (map (fun now => (now, new_stats Demo.Obj 0%Q)) [1; 2; 3; 4; 5; 6]%Q)
  = [None; None; None; None; None; Some (NoUpdatesWarning (6 - 0)%Q)].
Proof. reflexivity. Qed.

(** C6, as the code has it. At a tick with a nonzero [update_count]: if
    the count equals the one recorded, a receive time exists, more than 3.0
    seconds have passed since it and more than 5.0 seconds (strictly) since
    [last_warning_time], the "stalled" warning is logged and
    [last_warning_time] becomes [now]; if the count differs from the one
    recorded, it is recorded and nothing is logged. No warning is logged in
    any other case, and the watchdog's variables then stay as they are when
    the count has not moved. *)
Theorem watchdog_stalled
    (Obj : Type) (self : Stats Obj) (now : Q) (w : Watchdog) :
  update_count self <> 0 ->
  let w' := fst (monitor_tick Obj self now w) in
  let warning := snd (monitor_tick Obj self now w) in
  (forall last,
     update_count self = last_count w ->
     last_receive_time self = Some last ->
     (3 < now - last)%Q ->
     (5 < now - last_warning_time w)%Q ->
     warning = Some (StalledWarning (now - last)%Q) /\
     w' = {| last_count := last_count w; last_warning_time := now |}) /\
  (update_count self <> last_count w ->
     warning = None /\
     w' = {| last_count := update_count self;
             last_warning_time := last_warning_time w |}) /\
  (warning <> None ->
     exists last,
       update_count self = last_count w /\
       last_receive_time self = Some last /\
       (3 < now - last)%Q /\
       (5 < now - last_warning_time w)%Q /\
       warning = Some (StalledWarning (now - last)%Q)) /\
  (warning = None -> update_count self = last_count w -> w' = w).
Proof.
  intros Hc. cbn zeta. rewrite (tick_counting Obj self now w Hc).
  split; [|split; [|split]].
  - intros last Heq Hlast H3 H5.
    apply Z.eqb_eq in Heq. rewrite Heq, Hlast.
    apply Qltb_lt in H3, H5. rewrite H3, H5. split; reflexivity.
  - intros Hneq. apply Z.eqb_neq in Hneq. rewrite Hneq. split; reflexivity.
  - destruct (update_count self =? last_count w) eqn:Heq;
      [|intros H; now elim H].
    destruct (last_receive_time self) as [last|]; [|intros H; now elim H].
    destruct (Qltb 3 (now - last)) eqn:H3; [|intros H; now elim H].
    destruct (Qltb 5 (now - last_warning_time w)) eqn:H5;
      [|intros H; now elim H].
    intros _. exists last. apply Z.eqb_eq in Heq. apply Qltb_lt in H3, H5.
    repeat split; assumption.
  - intros Hnone Heq. apply Z.eqb_eq in Heq. rewrite Heq in *.
    destruct (last_receive_time self) as [last|]; [|reflexivity].
    destruct (Qltb 3 (now - last) && Qltb 5 (now - last_warning_time w));
      [discriminate | reflexivity].
Qed.

Lemma watchdog_stalled_witness :
  let self : Stats Demo.Obj := mkStats 5 PyNone (Some 10%Q) (Some 1%Q) 1%Q in
  let w := {| last_count := 5; last_warning_time := 0 |} in
  update_count self <> 0 /\
  snd (monitor_tick Demo.Obj self 14%Q w) = Some (StalledWarning (14 - 10)%Q) /\
  last_warning_time (fst (monitor_tick Demo.Obj self 14%Q w)) = 14%Q.
Proof.
  cbn zeta.
  assert (Hc : update_count (mkStats (Obj := Demo.Obj) 5 PyNone (Some 10%Q) (Some 1%Q) 1%Q) <> 0)
    by discriminate.
  split; [exact Hc|].
  destruct (proj1
    (watchdog_stalled Demo.Obj (mkStats 5 PyNone (Some 10%Q) (Some 1%Q) 1%Q)
       14%Q {| last_count := 5; last_warning_time := 0 |} Hc)
    10%Q eq_refl eq_refl eq_refl eq_refl) as [Hw Hs].
  split; [exact Hw|]. now rewrite Hs.
Defined.

(** C6, as stated, fails at the boundary. Five updates, the last at clock
    reading 10: the tick at 11 records the count, the tick at 16 warns; at
    the tick at 21 the count has not moved, the last update is 11 seconds
    old and exactly 5.0 seconds have passed since the warning, and no
    warning is logged. *)
Lemma no_stall_warning_after_exactly_five_seconds :
  let self : Stats Demo.Obj := mkStats 5 PyNone (Some 10%Q) (Some 1%Q) 1%Q in
  let t1 := monitor_tick Demo.Obj self 11%Q new_watchdog in
  let t2 := monitor_tick Demo.Obj self 16%Q (fst t1) in
  let t3 := monitor_tick Demo.Obj self 21%Q (fst t2) in
  update_count self <> 0 /\
  snd t2 = Some (StalledWarning (16 - 10)%Q) /\
  update_count self = last_count (fst t2) /\
  last_receive_time self = Some 10%Q /\
  (3 < 21 - 10)%Q /\
  (5 <= 21 - last_warning_time (fst t2))%Q /\
  snd t3 = None.
Proof. cbn zeta. repeat split; discriminate. Qed.


(** * Further properties *)

(** ** What [write] keeps *)

Lemma replace_newlines_no_newline (s : Py.str) :
  ~ In Py.newline (Py.replace_newlines s).
Proof.
  unfold Py.replace_newlines. intros H. apply in_map_iff in H.
  destruct H as [c [Hc _]].
  destruct (Ascii.eqb c Py.newline) eqn:E; [discriminate|].
  apply Ascii.eqb_neq in E. congruence.
Qed.

Lemma in_firstn {A} (n : nat) (l : list A) (x : A) :
  In x (firstn n l) -> In x l.
Proof.
  revert l. induction n as [|n IH]; intros [|y l]; cbn; try tauto.
  intros [H|H]; [now left | right; now apply IH].
Qed.

Lemma in_slice_to (stop : Z) (s : Py.str) (c : ascii) :
  In c (Py.slice_to stop s) -> In c s.
Proof.
  unfold Py.slice_to. destruct (stop <? 0); apply in_firstn.
Qed.

Lemma in_fit (width : Z) (text : Py.str) (c : ascii) :
  In c (fit width text) ->
  In c (Py.replace_newlines text) \/ c = "."%char.
Proof.
  unfold fit. destruct (_ <? _).
  - intros H. apply in_app_or in H. destruct H as [H|H].
    + left. eapply in_slice_to. exact H.
    + right. cbn in H. intuition congruence.
  - now left.
Qed.

Lemma in_replace_newlines (s : Py.str) (c : ascii) :
  In c (Py.replace_newlines s) -> In c s \/ c = Py.space.
Proof.
  unfold Py.replace_newlines. intros H. apply in_map_iff in H.
  destruct H as [x [Hx Hin]].
  destruct (Ascii.eqb x Py.newline); [now right | left; congruence].
Qed.

Lemma len_fit_le (width : Z) (text : Py.str) :
  Py.len (fit width text) <= Z.max 20 (width - 1) /\
  Py.len (fit width text) <= Py.len text.
Proof.
  destruct (Z_lt_le_dec (Z.max 20 (width - 1)) (Py.len text)) as [H|H].
  - destruct (fit_long width text H) as [_ Hlen]. lia.
  - rewrite (fit_short width text H), len_replace_newlines. lia.
Qed.

(** Whatever the text and the terminal, the text [write] remembers has no
    newline, is never longer than the text given nor than the larger of 20
    and width - 1, and on a terminal of at least 21 columns it is shorter
    than the terminal is wide. *)
Theorem write_text_fits
    (measured : option Z) (text : Py.str) (d : StatusDisplay) :
  let width := measure_width measured d in
  let shown := last_text (fst (write measured (Some text) d)) in
  ~ In Py.newline shown /\
  Py.len shown <= Py.len text /\
  Py.len shown <= Z.max 20 (width - 1) /\
  (21 <= width -> Py.len shown < width).
Proof.
  cbn zeta. rewrite write_last_text.
  destruct (len_fit_le (measure_width measured d) text) as [H1 H2].
  repeat split; try lia.
  intros H. apply in_fit in H. destruct H as [H|H]; [|discriminate].
  now apply replace_newlines_no_newline in H.
Qed.

Lemma write_text_fits_witness :
  let text := Py.of_string "first line
second line, long enough to be cut at forty columns" in
  21 <= measure_width (Some 40) (init None) /\
  Py.len (last_text (fst (write (Some 40) (Some text) (init None)))) < 40.
Proof.
  cbn zeta.
  assert (Hw : 21 <= measure_width (Some 40) (init None))
    by (vm_compute; discriminate).
  split; [exact Hw|].
  exact (proj2 (proj2 (proj2 (write_text_fits (Some 40) _ (init None)))) Hw).
Defined.

(** ** The remembered width *)

Lemma get_terminal_size_pos measured fallback :
  0 < fallback -> 0 < get_terminal_size measured fallback.
Proof.
  intros H. unfold get_terminal_size. destruct measured as [c|]; [|exact H].
  destruct (0 <? c) eqn:E; [now apply Z.ltb_lt in E | exact H].
Qed.

Lemma reachable_width_pos d : reachable d -> 0 < last_width d.
Proof.
  induction 1 as [measured | c d _ IH].
  - cbn. now apply get_terminal_size_pos.
  - destruct c as [measured [text|] | | | ]; cbn.
    + unfold measure_width. apply get_terminal_size_pos.
      unfold Py.int_or. destruct (last_width d =? 0); lia.
    + exact IH.
    + unfold interrupt. destruct (active d); exact IH.
    + unfold restore. destruct (last_text d); exact IH.
    + exact IH.
Qed.

(** The remembered width is positive in every state the object goes
    through, so [write] never falls back on 120: it works with the measured
    width when there is a positive one and with the width of the previous
    measurement otherwise. *)
Theorem remembered_width_positive (d : StatusDisplay) :
  reachable d ->
  0 < last_width d /\
  (forall measured,
     0 < measure_width measured d /\
     measure_width measured d =
       (match measured with
        | Some columns => if 0 <? columns then columns else last_width d
        | None => last_width d
        end)).
Proof.
  intros Hr. pose proof (reachable_width_pos d Hr) as Hpos.
  split; [exact Hpos|]. intros measured.
  assert (Hor : Py.int_or (last_width d) 120 = last_width d).
  { unfold Py.int_or. destruct (last_width d =? 0) eqn:E; [|reflexivity].
    apply Z.eqb_eq in E. lia. }
  unfold measure_width. rewrite Hor. split; [|reflexivity].
  now apply get_terminal_size_pos.
Qed.

Lemma remembered_width_positive_witness :
  let d := fst (perform (CallWrite (Some 0) (Some (Py.of_string "abc")))
                  (init (Some 72))) in
  reachable d /\ last_width d = 72 /\ measure_width None d = 72.
Proof.
  cbn zeta.
  assert (Hr : reachable
    (fst (perform (CallWrite (Some 0) (Some (Py.of_string "abc")))
       (init (Some 72))))) by (apply reachable_call, reachable_init).
  split; [exact Hr|]. split; [reflexivity|].
  exact (proj2 (proj2 (remembered_width_positive _ Hr) None)).
Defined.

(** ** What the terminal shows *)

Lemma put_char_plain (tm : Terminal) (c : ascii) :
  c <> Py.cr -> c <> Py.newline ->
  put_char tm c = mkTerminal (put_at (cursor tm) c (line tm)) (S (cursor tm)).
Proof.
  intros H1 H2. unfold put_char.
  apply Ascii.eqb_neq in H1, H2. now rewrite H1, H2.
Qed.

(** Plain text lands cell by cell from the cursor on. *)
Lemma print_plain (s : Py.str) : forall tm,
  plain s ->
  cursor (print s tm) = (cursor tm + List.length s)%nat /\
  forall n,
    cell (line (print s tm)) n =
      if (cursor tm <=? n)%nat && (n <? cursor tm + List.length s)%nat
      then nth (n - cursor tm) s Py.space
      else cell (line tm) n.
Proof.
  induction s as [|c s IH]; intros tm Hp.
  - change (print [] tm) with tm. cbn [List.length]. split; [lia|]. intros n.
    destruct (Nat.leb_spec (cursor tm) n);
      destruct (Nat.ltb_spec n (cursor tm + 0));
      cbn [andb]; try lia; reflexivity.
  - inversion Hp as [|? ? [Hc1 Hc2] Hp']; subst.
    rewrite print_cons, (put_char_plain tm c Hc1 Hc2).
    destruct (IH (mkTerminal (put_at (cursor tm) c (line tm)) (S (cursor tm))) Hp')
      as [Hcur Hcell].
    cbn [cursor line] in Hcur, Hcell. split; [cbn [List.length]; lia|].
    intros n. rewrite Hcell, cell_put_at. cbn [List.length].
    destruct (Nat.leb_spec (S (cursor tm)) n);
      destruct (Nat.ltb_spec n (S (cursor tm) + List.length s));
      destruct (Nat.leb_spec (cursor tm) n);
      destruct (Nat.ltb_spec n (cursor tm + S (List.length s)));
      destruct (Nat.eqb_spec n (cursor tm));
      cbn [andb]; try lia; try reflexivity;
      first [ subst n; rewrite Nat.sub_diag; reflexivity
            | replace (n - cursor tm)%nat with (S (n - S (cursor tm))) by lia;
              reflexivity ].
Qed.

(** Printing [s] on a line that is blank from column [k] on, with the
    cursor at [k] or before, leaves it blank from column [k + len s] on. *)
Lemma print_extent (s : Py.str) : forall tm k,
  (cursor tm <= k)%nat ->
  (forall n, (k <= n)%nat -> cell (line tm) n = Py.space) ->
  (cursor (print s tm) <= k + List.length s)%nat /\
  forall n, (k + List.length s <= n)%nat ->
            cell (line (print s tm)) n = Py.space.
Proof.
  induction s as [|c s IH]; intros tm k Hcur Hblank.
  - cbn. split; [lia|]. intros n Hn. apply Hblank. lia.
  - rewrite print_cons. cbn [List.length].
    replace (k + S (List.length s))%nat with (S k + List.length s)%nat by lia.
    apply IH; unfold put_char.
    + destruct (Ascii.eqb c Py.cr); [cbn; lia|].
      destruct (Ascii.eqb c Py.newline); cbn; lia.
    + intros n Hn. destruct (Ascii.eqb c Py.cr); [apply Hblank; lia|].
      destruct (Ascii.eqb c Py.newline); [apply cell_nil|].
      cbn [line]. rewrite cell_put_at.
      destruct (Nat.eqb n (cursor tm)) eqn:E;
        [apply Nat.eqb_eq in E; lia | apply Hblank; lia].
Qed.

Lemma shows_extent (t : Terminal) (text : Py.str) (n : nat) :
  shows t text -> (List.length text <= n)%nat -> cell (line t) n = Py.space.
Proof.
  intros Hs Hn. rewrite (Hs n).
  change (print (Py.cr :: text) blank_line) with (print text blank_line).
  destruct (print_extent text blank_line 0) as [_ H].
  - cbn. lia.
  - intros m _. apply cell_nil.
  - apply H. lia.
Qed.

Lemma print_same_line (s : Py.str) (a b : Terminal) :
  cursor a = cursor b -> same_line a b -> same_line (print s a) (print s b).
Proof.
  intros Hc Hab n.
  destruct (print_overlay s a b Hc n) as [H|[H1 H2]]; [exact H|].
  now rewrite H1, H2.
Qed.

Lemma plain_spaces (k : Z) : plain (Py.spaces k).
Proof.
  unfold plain, Py.spaces. apply Forall_forall. intros c Hc.
  apply repeat_spec in Hc. subst c. split; discriminate.
Qed.

Lemma plain_fit (width : Z) (text : Py.str) :
  ~ In Py.cr text -> plain (fit width text).
Proof.
  intros Hcr. apply Forall_forall. intros c Hc. split; intros ->.
  - apply in_fit in Hc. destruct Hc as [Hc|Hc]; [|discriminate].
    apply in_replace_newlines in Hc. destruct Hc as [Hc|Hc];
      [contradiction | discriminate].
  - apply in_fit in Hc. destruct Hc as [Hc|Hc]; [|discriminate].
    now apply replace_newlines_no_newline in Hc.
Qed.

Lemma nth_spaces (k : Z) (n : nat) : nth n (Py.spaces k) Py.space = Py.space.
Proof. apply nth_repeat. Qed.

(** After a carriage return, [text] (plain) and [k] spaces, the line reads
    [text], then blanks up to column [len text + k], then what it was. *)
Lemma print_text_and_pad (text : Py.str) (k : Z) (t : Terminal) (n : nat) :
  plain text ->
  cell (line (print (Py.cr :: text ++ Py.spaces k) t)) n =
    if (n <? List.length text)%nat then nth n text Py.space
    else if (n <? List.length text + Z.to_nat k)%nat then Py.space
    else cell (line t) n.
Proof.
  intros Hp. rewrite print_cons, print_app.
  change (put_char t Py.cr) with (mkTerminal (line t) 0).
  destruct (print_plain text (mkTerminal (line t) 0) Hp) as [Hc1 Hcell1].
  destruct (print_plain (Py.spaces k) (print text (mkTerminal (line t) 0))
              (plain_spaces k)) as [_ Hcell2].
  rewrite Hcell2, Hc1, Hcell1, nth_spaces. cbn [cursor line].
  unfold Py.spaces at 1. rewrite repeat_length.
  rewrite Nat.sub_0_r.
  destruct (Nat.leb_spec (0 + List.length text) n);
    destruct (Nat.ltb_spec n (0 + List.length text + Z.to_nat k));
    destruct (Nat.ltb_spec n (List.length text));
    destruct (Nat.ltb_spec n (List.length text + Z.to_nat k));
    destruct (Nat.ltb_spec n (0 + List.length text));
    cbn [andb Nat.leb]; try lia; reflexivity.
Qed.

Lemma print_text_only (text : Py.str) (n : nat) :
  plain text ->
  cell (line (print (Py.cr :: text) blank_line)) n =
    if (n <? List.length text)%nat then nth n text Py.space else Py.space.
Proof.
  intros Hp.
  pose proof (print_text_and_pad text 0 blank_line n Hp) as H.
  change (Py.spaces 0) with (@nil ascii) in H. rewrite app_nil_r in H.
  rewrite H. cbn [Z.to_nat].
  destruct (Nat.ltb_spec n (List.length text)); [reflexivity|].
  destruct (Nat.ltb_spec n (List.length text + 0)); [reflexivity | apply cell_nil].
Qed.

(** When the line shows the remembered text and the new text has no
    carriage return, the line shows exactly the new text after [write]:
    nothing of a longer previous text is left over. *)
Theorem write_replaces_line
    (measured : option Z) (text : Py.str) (d : StatusDisplay) (t : Terminal) :
  consistent d ->
  shows t (last_text d) ->
  ~ In Py.cr text ->
  shows (print (snd (write measured (Some text) d)) t)
        (last_text (fst (write measured (Some text) d))).
Proof.
  intros Hc Hs Hcr. unfold write. cbn [fst snd last_text].
  set (shown := fit (measure_width measured d) text).
  assert (Hp : plain shown) by now apply plain_fit.
  assert (Hpad : (if Py.len shown <? last_length d
                  then Py.spaces (last_length d - Py.len shown) else [])
                 = Py.spaces (last_length d - Py.len shown)).
  { destruct (Py.len shown <? last_length d) eqn:E; [reflexivity|].
    apply Z.ltb_ge in E. now rewrite spaces_nonpos by lia. }
  rewrite Hpad. intros n.
  rewrite print_text_and_pad, print_text_only by exact Hp.
  destruct (Nat.ltb_spec n (List.length shown)); [reflexivity|].
  destruct (Nat.ltb_spec n
              (List.length shown + Z.to_nat (last_length d - Py.len shown)));
    [reflexivity|].
  apply (shows_extent t (last_text d) n Hs).
  unfold consistent in Hc. unfold Py.len in *. lia.
Qed.

Lemma write_replaces_line_witness :
  let d := fst (write (Some 80) (Some (Py.of_string "a rather long status")) (init None)) in
  let t := print (snd (write (Some 80) (Some (Py.of_string "a rather long status"))
                         (init None))) blank_line in
  consistent d /\
  shows t (last_text d) /\
  shows (print (snd (write (Some 80) (Some (Py.of_string "short")) d)) t)
        (Py.of_string "short").
Proof.
  cbn zeta.
  assert (Hc : consistent
    (fst (write (Some 80) (Some (Py.of_string "a rather long status")) (init None))))
    by reflexivity.
  assert (Hs : shows
    (print (snd (write (Some 80) (Some (Py.of_string "a rather long status"))
                   (init None))) blank_line)
    (last_text
       (fst (write (Some 80) (Some (Py.of_string "a rather long status"))
               (init None)))))
    by (intros n; reflexivity).
  assert (Hcr : ~ In Py.cr (Py.of_string "short"))
    by (cbn; intuition discriminate).
  split; [exact Hc|]. split; [exact Hs|].
  exact (write_replaces_line (Some 80) (Py.of_string "short") _ _ Hc Hs Hcr).
Defined.

Lemma interrupt_active_output d :
  active d = true ->
  snd (interrupt d) = (Py.cr :: [] ++ Py.spaces (last_length d)) ++ [Py.cr].
Proof. intros H. unfold interrupt. rewrite H. reflexivity. Qed.

Lemma erase_blanks (d : StatusDisplay) (t : Terminal) :
  consistent d ->
  shows t (last_text d) ->
  let t' := print (Py.cr :: Py.spaces (last_length d) ++ [Py.cr]) t in
  cursor t' = O /\ same_line t' blank_line.
Proof.
  intros Hc Hs. cbn zeta.
  change (Py.cr :: Py.spaces (last_length d) ++ [Py.cr])
    with ((Py.cr :: [] ++ Py.spaces (last_length d)) ++ [Py.cr]).
  split; [apply print_ends_with_cr|].
  rewrite print_app. intros n.
  change (cell (line (print (Py.cr :: [] ++ Py.spaces (last_length d)) t)) n
          = cell [] n).
  rewrite print_text_and_pad by constructor. rewrite cell_nil. cbn [List.length].
  destruct (Nat.ltb_spec n 0); [lia|].
  destruct (Nat.ltb_spec n (0 + Z.to_nat (last_length d))); [reflexivity|].
  apply (shows_extent t (last_text d) n Hs).
  unfold consistent, Py.len in Hc. lia.
Qed.

(** [interrupt] always leaves the cursor in the first column and the
    display inactive, with its text still remembered. On an inactive display
    it leaves every cell of the line as it is. On an active display whose
    [displayed_length] is the length of its text and whose text the line
    shows, it leaves the line blank, so whatever is written next appears as
    on a fresh line. *)
Theorem interrupt_clears_line (d : StatusDisplay) (t : Terminal) :
  let t' := print (snd (interrupt d)) t in
  cursor t' = O /\
  active (fst (interrupt d)) = false /\
  last_text (fst (interrupt d)) = last_text d /\
  (active d = false -> line t' = line t) /\
  (active d = true ->
   consistent d ->
   shows t (last_text d) ->
   same_line t' blank_line /\
   forall message, same_line (print (snd (interrupt d) ++ message) t)
                             (print message blank_line)).
Proof.
  cbn zeta. split; [|split; [|split; [|split]]].
  - destruct (interrupt_output d) as [s [-> _]]. apply print_ends_with_cr.
  - unfold interrupt. destruct (active d) eqn:E; [reflexivity | exact E].
  - apply interrupt_keeps_text.
  - intros Ha. unfold interrupt. rewrite Ha. reflexivity.
  - intros Ha Hc Hs. unfold interrupt. rewrite Ha. cbn [snd].
    destruct (erase_blanks d t Hc Hs) as [Hcur Hblank].
    split; [exact Hblank|]. intros message. rewrite print_app.
    apply print_same_line; assumption.
Qed.

Lemma interrupt_clears_line_witness :
  let d := fst (write (Some 80) (Some (Py.of_string "uptime=  12.0s")) (init None)) in
  let t := print (snd (write (Some 80) (Some (Py.of_string "uptime=  12.0s"))
                         (init None))) blank_line in
  consistent d /\ shows t (last_text d) /\ active d = true /\
  same_line (print (snd (interrupt d) ++ Py.of_string "WARNING gap") t)
            (print (Py.of_string "WARNING gap") blank_line) /\
  line (print (snd (interrupt (fst (interrupt d)))) t) = line t.
Proof.
  cbn zeta.
  assert (Hc : consistent
    (fst (write (Some 80) (Some (Py.of_string "uptime=  12.0s")) (init None))))
    by reflexivity.
  assert (Hs : shows
    (print (snd (write (Some 80) (Some (Py.of_string "uptime=  12.0s"))
                   (init None))) blank_line)
    (last_text
       (fst (write (Some 80) (Some (Py.of_string "uptime=  12.0s")) (init None)))))
    by (intros n; reflexivity).
  split; [exact Hc|]. split; [exact Hs|]. split; [reflexivity|]. split.
  - exact (proj2 (proj2 (proj2 (proj2 (proj2
             (interrupt_clears_line
                (fst (write (Some 80) (Some (Py.of_string "uptime=  12.0s"))
                        (init None)))
                (print (snd (write (Some 80)
                               (Some (Py.of_string "uptime=  12.0s"))
                               (init None))) blank_line)))))
             eq_refl Hc Hs)
             (Py.of_string "WARNING gap")).
  - exact (proj1 (proj2 (proj2 (proj2
             (interrupt_clears_line
                (fst (interrupt
                   (fst (write (Some 80) (Some (Py.of_string "uptime=  12.0s"))
                           (init None)))))
                (print (snd (write (Some 80)
                               (Some (Py.of_string "uptime=  12.0s"))
                               (init None))) blank_line)))))
             eq_refl).
Defined.

(** [clear] blanks the line that shows the remembered text and forgets the
    text: afterwards [restore] writes nothing, [interrupt] writes a single
    carriage return, and neither changes the state. *)
Theorem clear_forgets (d : StatusDisplay) (t : Terminal) :
  consistent d ->
  shows t (last_text d) ->
  let d' := fst (clear d) in
  let t' := print (snd (clear d)) t in
  cursor t' = O /\
  same_line t' blank_line /\
  shows t' (last_text d') /\
  restore d' = (d', []) /\
  interrupt d' = (d', [Py.cr]) /\
  last_width d' = last_width d.
Proof.
  intros Hc Hs. cbn zeta. unfold clear. cbn [fst snd].
  destruct (erase_blanks d t Hc Hs) as [Hcur Hblank].
  repeat split; try assumption.
Qed.

Lemma clear_forgets_witness :
  let d := fst (write (Some 80) (Some (Py.of_string "uptime=  12.0s")) (init None)) in
  let t := print (snd (write (Some 80) (Some (Py.of_string "uptime=  12.0s"))
                         (init None))) blank_line in
  consistent d /\ shows t (last_text d) /\
  same_line (print (snd (clear d)) t) blank_line.
Proof.
  cbn zeta.
  assert (Hc : consistent
    (fst (write (Some 80) (Some (Py.of_string "uptime=  12.0s")) (init None))))
    by reflexivity.
  assert (Hs : shows
    (print (snd (write (Some 80) (Some (Py.of_string "uptime=  12.0s"))
                   (init None))) blank_line)
    (last_text
       (fst (write (Some 80) (Some (Py.of_string "uptime=  12.0s")) (init None)))))
    by (intros n; reflexivity).
  split; [exact Hc|]. split; [exact Hs|].
  exact (proj1 (proj2 (clear_forgets _ _ Hc Hs))).
Defined.

(** ** A log record between two status lines *)

Lemma emit_run
    (LogRecord : Type) (stream_emit : LogRecord -> Outcome unit * Py.str)
    (record : LogRecord) (w : World) :
  emit LogRecord stream_emit record w =
    (fst (stream_emit record),
     {| display := fst (restore (fst (interrupt (display w))));
        stdout := stdout w ++ snd (interrupt (display w))
                    ++ snd (stream_emit record)
                    ++ snd (restore (fst (interrupt (display w)))) |}).
Proof.
  unfold emit, bind, try_finally, on_display, super_emit.
  destruct (interrupt (display w)) as [d1 w1].
  destruct (stream_emit record) as [o written]. cbn [display stdout fst snd].
  destruct (restore d1) as [d2 w2]. cbn [fst snd].
  rewrite <- !app_assoc.
  destruct o as [[]|e]; reflexivity.
Qed.

Lemma print_newline_last (s : Py.str) (t : Terminal) :
  print (s ++ [Py.newline]) t = blank_line.
Proof. rewrite print_app. reflexivity. Qed.

(** When the stream handler ends what it writes with a newline, then
    whatever the line looked like before, whatever the message and whether
    the emission returned or raised: after [emit] the current line shows the
    remembered status text, the text and its length are unchanged, and the
    display is active exactly when the text is not empty. *)
Theorem emit_redraws_status
    (LogRecord : Type) (stream_emit : LogRecord -> Outcome unit * Py.str)
    (record : LogRecord) (message : Py.str) (w : World) (t : Terminal) :
  consistent (display w) ->
  snd (stream_emit record) = message ++ [Py.newline] ->
  let w' := snd (emit LogRecord stream_emit record w) in
  exists written,
    stdout w' = stdout w ++ written /\
    shows (print written t) (last_text (display w)) /\
    last_text (display w') = last_text (display w) /\
    last_length (display w') = last_length (display w) /\
    active (display w') = negb (Py.len (last_text (display w)) =? 0).
Proof.
  intros Hc Hmsg. cbn zeta. rewrite emit_run. cbn [snd stdout display].
  eexists. split; [reflexivity|].
  destruct (interrupt_keeps_text (display w)) as [Ht1 Hl1].
  destruct (restore_keeps_text (fst (interrupt (display w)))) as [Ht2 Hl2].
  assert (Hc1 : consistent (fst (interrupt (display w))))
    by (unfold consistent; now rewrite Ht1, Hl1).
  split; [|split; [congruence | split; [congruence|]]].
  - rewrite Hmsg, (restore_output _ Hc1), Ht1.
    rewrite app_assoc, print_app, app_assoc, print_newline_last.
    destruct (last_text (display w)); intros n; reflexivity.
  - unfold restore. rewrite Ht1.
    destruct (last_text (display w)) as [|c text] eqn:E.
    + cbn [fst]. unfold interrupt. destruct (active (display w)) eqn:Ea;
        cbn [fst active]; [reflexivity|]. rewrite Ea. reflexivity.
    + reflexivity.
Qed.

Lemma emit_redraws_status_witness :
  let w := {| display := fst (write (Some 80) (Some (Py.of_string "X=1.0")) (init None));
              stdout := [] |} in
  let stream_emit := fun _ : unit =>
    (Raised (OtherException "RecursionError"),
     Py.of_string "INFO button" ++ [Py.newline]) in
  consistent (display w) /\
  exists written,
    stdout (snd (emit unit stream_emit tt w)) = stdout w ++ written /\
    shows (print written (print (Py.of_string "garbage on the line") blank_line))
          (Py.of_string "X=1.0").
Proof.
  cbn zeta.
  assert (Hc : consistent
    (fst (write (Some 80) (Some (Py.of_string "X=1.0")) (init None))))
    by reflexivity.
  split; [exact Hc|].
  destruct (emit_redraws_status unit
              (fun _ : unit =>
                 (Raised (OtherException "RecursionError"),
                  Py.of_string "INFO button" ++ [Py.newline]))
              tt (Py.of_string "INFO button")
              {| display := fst (write (Some 80) (Some (Py.of_string "X=1.0")) (init None));
                 stdout := [] |}
              (print (Py.of_string "garbage on the line") blank_line)
              Hc eq_refl) as [written [H1 [H2 _]]].
  exists written. split; [exact H1 | exact H2].
Defined.

(** ** The status text *)

Lemma len_slice_to_le (stop : Z) (s : Py.str) :
  0 <= stop -> Py.len (Py.slice_to stop s) <= stop.
Proof.
  intros H. unfold Py.slice_to.
  destruct (stop <? 0) eqn:E; [apply Z.ltb_lt in E; lia|].
  unfold Py.len. rewrite length_firstn. lia.
Qed.

Section StatusText.

Variable Obj : Type.
Variable float_of : Obj -> Outcome PrimFloat.float.
Variable str_outcome : Obj -> Outcome Py.str.
Variable obj_eqb : Obj -> Obj -> bool.
Variable format_f : nat -> nat -> PrimFloat.float -> Py.str.

Lemma read_attr_value (update : Payload Obj) (name : string)
    (v : Value Obj) :
  read_attr Obj update name PyNone = Returned v ->
  v = value_or_none Obj update name.
Proof.
  unfold read_attr, value_or_none.
  destruct (attribute Obj update name) as [|w|e]; intros H;
    [apply Returned_eq in H; now subst
    |apply Returned_eq in H; now subst
    |discriminate].
Qed.

(** One run of the callback, by how far it gets: formatting raises,
    [dir(update)] raises on the first update, the second read of [Buttons]
    raises, or the callback returns. *)
Lemma handler_result (now : PrimFloat.float) (update : Payload Obj)
    (self : StatsOf PrimFloat.float Obj) :
  let r := handler Obj float_of str_outcome obj_eqb format_f now update self in
  let log1 :=
    match last_receive_time self with
    | Some last =>
        if PrimFloat.ltb F64.half (PrimFloat.sub now last)
        then [GapWarning (PrimFloat.sub now last)] else []
    | None => [FirstCallback]
    end in
  let log2 := if update_count self + 1 =? 1 then [FirstUpdate] else [] in
  let old := last_button_state self in
  match status Obj r with
  | Raised e =>
      ended Obj r = Raised e /\ logged Obj r = log1 /\
      last_button_state (stats_after Obj r) = old
  | Returned text =>
      match (if update_count self + 1 =? 1
             then dir Obj update else Returned []) with
      | Raised e =>
          ended Obj r = Raised e /\ logged Obj r = log1 /\
          last_button_state (stats_after Obj r) = old
      | Returned _ =>
          match read_attr Obj update "Buttons" PyNone with
          | Raised e =>
              ended Obj r = Raised e /\ logged Obj r = log1 ++ log2 /\
              last_button_state (stats_after Obj r) = old
          | Returned buttons =>
              ended Obj r = Returned tt /\
              logged Obj r =
                log1 ++ log2
                ++ (if value_neq Obj obj_eqb buttons old
                    then [ButtonChanged old buttons] else []) /\
              last_button_state (stats_after Obj r) =
                (if value_neq Obj obj_eqb buttons old then buttons else old)
          end
      end
  end.
Proof.
  cbn zeta. unfold handler.
  destruct (last_receive_time self) as [last|];
    destruct (_format_status _ _ _ _ _ _ _ _) as [text|e];
    cbn [status ended logged stats_after last_button_state];
    try (repeat split; reflexivity);
    destruct (update_count self + 1 =? 1);
    try destruct (dir Obj update) as [names|e1]; cbn [obind];
    try (repeat split; reflexivity);
    destruct (read_attr Obj update "Buttons" PyNone) as [buttons|e2];
    try (repeat split; reflexivity);
    destruct (value_neq Obj obj_eqb buttons (last_button_state self));
    cbn [status ended logged stats_after last_button_state];
    rewrite ?app_nil_r; repeat split; reflexivity.
Qed.

End StatusText.

(** Every status text [_format_status] returns is at most 512 characters
    long and has no newline, whatever the driver's values print as; and it
    does return one when no attribute read raises and [str] prints the
    payload's values. *)
Theorem format_status_bounded
    (Obj : Type) (float_of : Obj -> Outcome PrimFloat.float)
    (str_outcome : Obj -> Outcome Py.str) (str_of : Obj -> Py.str)
    (format_f : nat -> nat -> PrimFloat.float -> Py.str)
    (self : StatsOf PrimFloat.float Obj) (update : Payload Obj)
    (dt : option PrimFloat.float) (uptime : PrimFloat.float) :
  (forall text,
     _format_status Obj float_of str_outcome format_f self update dt uptime
       = Returned text ->
     Py.len text <= 512 /\ ~ In Py.newline text) /\
  ((forall name e, In name status_attrs ->
                   attribute Obj update name <> ReadRaises e) ->
   (forall name o, In name printed_attrs ->
                   attribute Obj update name = Holds (PyObj o) ->
                   str_outcome o = Returned (str_of o)) ->
   exists text,
     _format_status Obj float_of str_outcome format_f self update dt uptime
       = Returned text).
Proof.
  split.
  - intros text H.
    destruct (format_status_shape Obj float_of str_outcome format_f
                self update dt uptime text H) as [body ->].
    split.
    + apply len_slice_to_le. lia.
    + intros Hin. apply in_slice_to in Hin.
      now apply replace_newlines_no_newline in Hin.
  - intros Hread Hstr. eexists.
    exact (format_status_line Obj float_of str_outcome format_f str_of
             self update dt uptime Hread Hstr).
Qed.

Lemma format_status_bounded_witness :
  Py.len (Py.of_string
    "#000001 | ts=         - | XYZ=(      12,    n/a ,    err ) | ABC=(   n/a ,    n/a ,    n/a ) | Angles=(  n/a) | Buttons=- | dt=   ---  | avg=--.-Hz | uptime=     3s")
    <= 512 /\
  exists text,
    _format_status Demo.Obj Demo.float_of Demo.str_outcome Demo.format_f
      (mkStats 1 PyNone (Some (Demo.float_of_Z 3)) None (Demo.float_of_Z 0))
      Demo.empty_update None (Demo.float_of_Z 3)
    = Returned text.
Proof.
  split.
  - refine (proj1 (proj1
      (format_status_bounded Demo.Obj Demo.float_of Demo.str_outcome
         Demo.str_of Demo.format_f
         (mkStats 1 PyNone (Some (Demo.float_of_Z 3)) None (Demo.float_of_Z 0))
         Demo.update1 None (Demo.float_of_Z 3)) _ _)).
    vm_compute. reflexivity.
  - refine (proj2
      (format_status_bounded Demo.Obj Demo.float_of Demo.str_outcome
         Demo.str_of Demo.format_f
         (mkStats 1 PyNone (Some (Demo.float_of_Z 3)) None (Demo.float_of_Z 0))
         Demo.empty_update None (Demo.float_of_Z 3)) _ _).
    + intros name e _. discriminate.
    + intros name o _ H. discriminate H.
Defined.

(** ** What the callback logs *)

Ltac not_logged H :=
  repeat match type of H with
         | In _ (_ ++ _) => apply in_app_or in H; destruct H as [H|H]
         | In _ (if ?b then _ else _) => destruct b
         | In _ (match ?x with _ => _ end) => destruct x
         | In _ (_ :: _) => destruct H as [H|H]; [try discriminate H|]
         | In _ [] => destruct H
         end.

(** One run of the callback, with the arithmetic of binary64. It logs a gap
    warning exactly when there was an earlier update and the difference
    [now - last_receive_time] is above 0.5, and the warning carries that
    difference. It logs the first-callback message exactly when there was no
    earlier update. It logs the first-update messages exactly when no
    update had been counted, formatting the status returned and
    [dir(update)] returned. *)
Theorem handler_reports_gaps
    (Obj : Type) (float_of : Obj -> Outcome PrimFloat.float)
    (str_outcome : Obj -> Outcome Py.str)
    (obj_eqb : Obj -> Obj -> bool)
    (format_f : nat -> nat -> PrimFloat.float -> Py.str)
    (now : PrimFloat.float) (update : Payload Obj)
    (self : StatsOf PrimFloat.float Obj) :
  let r := handler Obj float_of str_outcome obj_eqb format_f now update self in
  (forall x, In (GapWarning x) (logged Obj r) <->
     exists last, last_receive_time self = Some last /\
                  x = PrimFloat.sub now last /\
                  PrimFloat.ltb F64.half (PrimFloat.sub now last) = true) /\
  (In FirstCallback (logged Obj r) <-> last_receive_time self = None) /\
  (In FirstUpdate (logged Obj r) <->
     update_count self = 0 /\
     (exists text, status Obj r = Returned text) /\
     (exists names, dir Obj update = Returned names)).
Proof.
  cbn zeta.
  pose proof (handler_result Obj float_of str_outcome obj_eqb format_f
                now update self) as R.
  cbn zeta in R.
  set (r := handler Obj float_of str_outcome obj_eqb format_f now update self)
    in *.
  assert (Hone : (update_count self + 1 =? 1) = true <-> update_count self = 0)
    by (rewrite Z.eqb_eq; lia).
  split; [|split].
  - intros x. split.
    + intros H.
      assert (Hin : In (A := LogMsgOf PrimFloat.float Obj) (GapWarning x)
        match last_receive_time self with
        | Some last =>
            if PrimFloat.ltb F64.half (PrimFloat.sub now last)
            then [GapWarning (PrimFloat.sub now last)] else []
        | None => [FirstCallback]
        end).
      { destruct (status Obj r) as [text|e].
        - destruct (if update_count self + 1 =? 1
                    then dir Obj update else Returned []) as [names|e].
          + destruct (read_attr Obj update "Buttons" PyNone) as [buttons|e];
              destruct R as [_ [R _]]; rewrite R in H.
            * apply in_app_or in H. destruct H as [H|H]; [exact H|].
              exfalso. not_logged H.
            * apply in_app_or in H. destruct H as [H|H]; [exact H|].
              exfalso. not_logged H.
          + destruct R as [_ [R _]]. now rewrite R in H.
        - destruct R as [_ [R _]]. now rewrite R in H. }
      destruct (last_receive_time self) as [last|];
        [|destruct Hin as [Hin|[]]; discriminate Hin].
      destruct (PrimFloat.ltb F64.half (PrimFloat.sub now last)) eqn:E;
        [|destruct Hin].
      destruct Hin as [Hin|[]]. injection Hin as <-.
      exists last. split; [reflexivity|]. split; [reflexivity | exact E].
    + intros [last [Hl [-> Hgap]]].
      assert (Hin : forall rest : list (LogMsgOf PrimFloat.float Obj),
        In (GapWarning (PrimFloat.sub now last))
        (match last_receive_time self with
         | Some last =>
             if PrimFloat.ltb F64.half (PrimFloat.sub now last)
             then [GapWarning (PrimFloat.sub now last)] else []
         | None => [FirstCallback]
         end ++ rest)).
      { intros rest. rewrite Hl, Hgap. now left. }
      destruct (status Obj r) as [text|e].
      * destruct (if update_count self + 1 =? 1
                  then dir Obj update else Returned []) as [names|e].
        -- destruct (read_attr Obj update "Buttons" PyNone) as [buttons|e];
             destruct R as [_ [R _]]; rewrite R; apply Hin.
        -- destruct R as [_ [R _]]. rewrite R.
           specialize (Hin []). now rewrite app_nil_r in Hin.
      * destruct R as [_ [R _]]. rewrite R.
        specialize (Hin []). now rewrite app_nil_r in Hin.
  - split.
    + intros H.
      destruct (last_receive_time self) as [last|]; [|reflexivity].
      exfalso.
      destruct (status Obj r) as [text|e].
      * destruct (if update_count self + 1 =? 1
                  then dir Obj update else Returned []) as [names|e].
        -- destruct (read_attr Obj update "Buttons" PyNone) as [buttons|e];
             destruct R as [_ [R _]]; rewrite R in H; not_logged H.
        -- destruct R as [_ [R _]]. rewrite R in H. not_logged H.
      * destruct R as [_ [R _]]. rewrite R in H. not_logged H.
    + intros Hl. rewrite Hl in R.
      destruct (status Obj r) as [text|e].
      * destruct (if update_count self + 1 =? 1
                  then dir Obj update else Returned []) as [names|e].
        -- destruct (read_attr Obj update "Buttons" PyNone) as [buttons|e];
             destruct R as [_ [R _]]; rewrite R; now left.
        -- destruct R as [_ [R _]]. rewrite R. now left.
      * destruct R as [_ [R _]]. rewrite R. now left.
  - split.
    + intros H.
      destruct (status Obj r) as [text|e].
      * destruct (update_count self + 1 =? 1) eqn:E.
        -- destruct (dir Obj update) as [names|e].
           ++ split; [now apply Hone|]. split; eexists; reflexivity.
           ++ exfalso. destruct R as [_ [R _]]. rewrite R in H. not_logged H.
        -- exfalso.
           destruct (read_attr Obj update "Buttons" PyNone) as [buttons|e];
             destruct R as [_ [R _]]; rewrite R in H; not_logged H.
      * exfalso. destruct R as [_ [R _]]. rewrite R in H. not_logged H.
    + intros [Hc [[text Ht] [names Hn]]].
      apply Hone in Hc. rewrite Ht, Hc, Hn in R.
      destruct (read_attr Obj update "Buttons" PyNone) as [buttons|e];
        destruct R as [_ [R _]]; rewrite R;
        apply in_or_app; right; now left.
Qed.

(** Once the callback returns it has compared the payload's [Buttons]
    ([None] when absent) with the remembered state: it has logged a button
    change exactly when they differ, with the old and the new value, and it
    remembers the new value. A callback that raises, in formatting the
    status or in reading the payload, logs no button change and leaves the
    remembered state as it was. When the callback returns, formatting
    returned a status text. *)
Theorem handler_tracks_buttons
    (Obj : Type) (float_of : Obj -> Outcome PrimFloat.float)
    (str_outcome : Obj -> Outcome Py.str)
    (obj_eqb : Obj -> Obj -> bool)
    (format_f : nat -> nat -> PrimFloat.float -> Py.str)
    (now : PrimFloat.float) (update : Payload Obj)
    (self : StatsOf PrimFloat.float Obj) :
  let r := handler Obj float_of str_outcome obj_eqb format_f now update self in
  let buttons := value_or_none Obj update "Buttons" in
  let old := last_button_state self in
  (ended Obj r = Returned tt ->
   (exists text, status Obj r = Returned text) /\
   (forall was new, In (ButtonChanged was new) (logged Obj r) <->
      was = old /\ new = buttons /\
      value_neq Obj obj_eqb buttons old = true) /\
   last_button_state (stats_after Obj r) =
     (if value_neq Obj obj_eqb buttons old then buttons else old)) /\
  (forall e, ended Obj r = Raised e ->
   (forall was new, ~ In (ButtonChanged was new) (logged Obj r)) /\
   last_button_state (stats_after Obj r) = old) /\
  (forall e, status Obj r = Raised e -> ended Obj r = Raised e).
Proof.
  cbn zeta.
  pose proof (handler_result Obj float_of str_outcome obj_eqb format_f
                now update self) as R.
  cbn zeta in R.
  set (r := handler Obj float_of str_outcome obj_eqb format_f now update self)
    in *.
  split; [|split].
  - intros Hend.
    destruct (status Obj r) as [text|e];
      [|destruct R as [R _]; rewrite R in Hend; discriminate Hend].
    split; [now exists text|].
    destruct (if update_count self + 1 =? 1
              then dir Obj update else Returned []) as [names|e];
      [|destruct R as [R _]; rewrite R in Hend; discriminate Hend].
    destruct (read_attr Obj update "Buttons" PyNone) as [buttons|e] eqn:Eb;
      [|destruct R as [R _]; rewrite R in Hend; discriminate Hend].
    apply read_attr_value in Eb. subst buttons.
    destruct R as [_ [Rl Rb]]. split; [|exact Rb].
    intros was new. rewrite Rl. split.
    + intros H. apply in_app_or in H. destruct H as [H|H];
        [exfalso; not_logged H|].
      apply in_app_or in H. destruct H as [H|H]; [exfalso; not_logged H|].
      destruct (value_neq Obj obj_eqb _ _); [|destruct H].
      destruct H as [H|[]]. injection H as <- <-. repeat split.
    + intros [-> [-> Hneq]]. rewrite Hneq.
      apply in_or_app. right. apply in_or_app. right. now left.
  - intros e Hend.
    destruct (status Obj r) as [text|e'].
    + destruct (if update_count self + 1 =? 1
                then dir Obj update else Returned []) as [names|e'].
      * destruct (read_attr Obj update "Buttons" PyNone) as [buttons|e'].
        -- destruct R as [R _]. rewrite R in Hend. discriminate Hend.
        -- destruct R as [_ [Rl Rb]]. split; [|exact Rb].
           intros was new H. rewrite Rl in H. not_logged H.
      * destruct R as [_ [Rl Rb]]. split; [|exact Rb].
        intros was new H. rewrite Rl in H. not_logged H.
    + destruct R as [_ [Rl Rb]]. split; [|exact Rb].
      intros was new H. rewrite Rl in H. not_logged H.
  - intros e Hst. rewrite Hst in R. apply R.
Qed.

Lemma handler_tracks_buttons_witness :
  let pressed : Payload Demo.Obj :=
    {| attribute := fun name =>
         if String.eqb name "Buttons" then Holds (PyObj (Demo.Number 1))
         else Missing;
       dir := Returned ["Buttons"]%string |} in
  let r := handler Demo.Obj Demo.float_of Demo.str_outcome Demo.obj_eqb
             Demo.format_f (Demo.float_of_Z 10) pressed
             (new_stats Demo.Obj (Demo.float_of_Z 9)) in
  ended Demo.Obj r = Returned tt /\
  In (ButtonChanged PyNone (PyObj (Demo.Number 1))) (logged Demo.Obj r) /\
  last_button_state (stats_after Demo.Obj r) = PyObj (Demo.Number 1) /\
  let broken := handler Demo.Obj Demo.float_of Demo.str_outcome Demo.obj_eqb
                  Demo.format_f (Demo.float_of_Z 10) Demo.broken_update
                  (new_stats Demo.Obj (Demo.float_of_Z 9)) in
  ended Demo.Obj broken = Raised (OtherException "InvalidOperationException") /\
  last_button_state (stats_after Demo.Obj broken) = PyNone.
Proof.
  cbn zeta.
  set (pressed := {| attribute := fun name =>
         if String.eqb name "Buttons" then Holds (PyObj (Demo.Number 1))
         else Missing;
       dir := Returned ["Buttons"]%string |}).
  pose proof (handler_tracks_buttons Demo.Obj Demo.float_of Demo.str_outcome
                Demo.obj_eqb Demo.format_f (Demo.float_of_Z 10) pressed
                (new_stats Demo.Obj (Demo.float_of_Z 9))) as T.
  pose proof (handler_tracks_buttons Demo.Obj Demo.float_of Demo.str_outcome
                Demo.obj_eqb Demo.format_f (Demo.float_of_Z 10)
                Demo.broken_update
                (new_stats Demo.Obj (Demo.float_of_Z 9))) as B.
  cbn zeta in T, B.
  assert (Hend : ended Demo.Obj
    (handler Demo.Obj Demo.float_of Demo.str_outcome Demo.obj_eqb
       Demo.format_f (Demo.float_of_Z 10) pressed
       (new_stats Demo.Obj (Demo.float_of_Z 9))) = Returned tt)
    by (vm_compute; reflexivity).
  assert (Hbad : ended Demo.Obj
    (handler Demo.Obj Demo.float_of Demo.str_outcome Demo.obj_eqb
       Demo.format_f (Demo.float_of_Z 10) Demo.broken_update
       (new_stats Demo.Obj (Demo.float_of_Z 9)))
    = Raised (OtherException "InvalidOperationException"))
    by (vm_compute; reflexivity).
  split; [exact Hend|]. split; [|split; [|split; [exact Hbad|]]].
  - apply (proj1 (proj2 (proj1 T Hend))). repeat split.
  - exact (proj2 (proj2 (proj1 T Hend))).
  - exact (proj2 (proj1 (proj2 B) _ Hbad)).
Defined.

Section Deliveries.

Variable Obj : Type.
Variable float_of : Obj -> Outcome PrimFloat.float.
Variable str_outcome : Obj -> Outcome Py.str.
Variable obj_eqb : Obj -> Obj -> bool.
Variable format_f : nat -> nat -> PrimFloat.float -> Py.str.

Let feed := deliver Obj float_of str_outcome obj_eqb format_f.

Lemma deliver_app (a b : list (PrimFloat.float * Payload Obj))
    (self : StatsOf PrimFloat.float Obj) :
  feed (a ++ b) self = feed b (feed a self).
Proof.
  revert self. induction a as [|[now u] a IH]; intros self; [reflexivity|].
  cbn. apply IH.
Qed.

Lemma deliver_count (updates : list (PrimFloat.float * Payload Obj)) :
  forall self,
  update_count (feed updates self)
    = update_count self + Z.of_nat (List.length updates) /\
  start_time (feed updates self) = start_time self.
Proof.
  induction updates as [|[now u] rest IH]; intros self.
  - cbn. split; [lia | reflexivity].
  - cbn [feed deliver List.length].
    destruct (IH (stats_after Obj
                    (handler Obj float_of str_outcome obj_eqb format_f
                       now u self)))
      as [Hc Hs].
    destruct (handler_timing Obj float_of str_outcome obj_eqb format_f
                now u self)
      as [Hc1 [_ [Hs1 _]]].
    unfold feed in *. rewrite Hc, Hs, Hc1, Hs1. split; [lia | reflexivity].
Qed.

End Deliveries.

(** [update_count] counts the callbacks: after any series of updates it has
    grown by their number, the start time is untouched, and the receive time
    is the clock reading of the last one. *)
Theorem deliver_counts_updates
    (Obj : Type) (float_of : Obj -> Outcome PrimFloat.float)
    (str_outcome : Obj -> Outcome Py.str)
    (obj_eqb : Obj -> Obj -> bool)
    (format_f : nat -> nat -> PrimFloat.float -> Py.str)
    (updates : list (PrimFloat.float * Payload Obj))
    (self : StatsOf PrimFloat.float Obj) :
  let after := deliver Obj float_of str_outcome obj_eqb format_f updates self in
  update_count after = update_count self + Z.of_nat (List.length updates) /\
  start_time after = start_time self /\
  (forall earlier now update,
     updates = earlier ++ [(now, update)] ->
     last_receive_time after = Some now).
Proof.
  cbn zeta.
  destruct (deliver_count Obj float_of str_outcome obj_eqb format_f updates self)
    as [Hc Hs].
  split; [exact Hc|]. split; [exact Hs|].
  intros earlier now update ->. rewrite deliver_app. cbn [deliver].
  apply (handler_timing Obj float_of str_outcome obj_eqb format_f).
Qed.

Lemma deliver_counts_updates_witness :
  last_receive_time
    (deliver Demo.Obj Demo.float_of Demo.str_outcome Demo.obj_eqb Demo.format_f
       [(Demo.float_of_Z 10, Demo.empty_update);
        (Demo.float_of_Z 11, Demo.broken_update)]
       (new_stats Demo.Obj (Demo.float_of_Z 9)))
  = Some (Demo.float_of_Z 11).
Proof.
  exact (proj2 (proj2
    (deliver_counts_updates Demo.Obj Demo.float_of Demo.str_outcome
       Demo.obj_eqb Demo.format_f
       [(Demo.float_of_Z 10, Demo.empty_update);
        (Demo.float_of_Z 11, Demo.broken_update)]
       (new_stats Demo.Obj (Demo.float_of_Z 9))))
    [(Demo.float_of_Z 10, Demo.empty_update)] (Demo.float_of_Z 11)
    Demo.broken_update eq_refl).
Defined.

(** ** Binary64

    What the callback stores and logs is what binary64 gives, which is not
    always what the same formula gives on the exact readings. The clock
    readings used in the watchdog's runs are small integers, exact in
    binary64, and a difference of exactly 5.0 is not greater than 5.0. *)

Module Binary64.

Import PrimFloat.
Local Set Warnings "-inexact-float".

(** The constants are the doubles Python reads the literals as. *)
Example literals_in_binary64 :
  F64.nine_tenths = 0.9%float /\ F64.one_tenth = 0.1%float /\
  F64.half = 0.5%float /\ F64.thousand = 1000%float.
Proof. repeat split; reflexivity. Qed.

Example smoothing_in_binary64 :
  PrimFloat.eqb (0x1.ccccccccccccdp-1 * 1 + 0x1.999999999999ap-4 * 1)%float
                1%float = true.
Proof. vm_compute. reflexivity. Qed.

(** A period equal to the new sample does not stay put: the sum rounds
    up. *)
Example smoothing_rounds_up :
  PrimFloat.ltb 0.8125%float
    (F64.nine_tenths * 0.8125 + F64.one_tenth * 0.8125)%float = true.
Proof. vm_compute. reflexivity. Qed.

(** The readings 0.15 and 0.65 are more than half a second apart as
    decimals, but their difference as doubles is exactly 0.5: no gap is
    logged. *)
Example no_gap_at_rounded_half :
  logged Demo.Obj
    (handler Demo.Obj Demo.float_of Demo.str_outcome Demo.obj_eqb
       Demo.format_f 0.65%float Demo.empty_update
       (mkStats 1 PyNone (Some 0.15%float) None 0%float))
  = [].
Proof. vm_compute. reflexivity. Qed.

Example boundary_in_binary64 :
  PrimFloat.ltb 5%float (15 - 10)%float = false /\
  PrimFloat.ltb 5%float (21 - 16)%float = false.
Proof. vm_compute. split; reflexivity. Qed.

End Binary64.

(** ** The watchdog over a run *)

Section WatchdogRun.

Variable Obj : Type.

(** Why a wake-up warns, and what it does to the watchdog's variables. *)
Lemma tick_cases (self : Stats Obj) (now : Q) (w : Watchdog) :
  (exists warning,
     snd (monitor_tick Obj self now w) = Some warning /\
     fst (monitor_tick Obj self now w)
       = {| last_count := last_count w; last_warning_time := now |} /\
     (5 < now - last_warning_time w)%Q /\
     ((warning = NoUpdatesWarning (now - start_time self)%Q /\
       update_count self = 0 /\ (2 < now - start_time self)%Q) \/
      (exists last,
         warning = StalledWarning (now - last)%Q /\
         update_count self = last_count w /\
         last_receive_time self = Some last /\ (3 < now - last)%Q))) \/
  (snd (monitor_tick Obj self now w) = None /\
   last_warning_time (fst (monitor_tick Obj self now w)) = last_warning_time w /\
   (last_count (fst (monitor_tick Obj self now w)) = last_count w \/
    last_count (fst (monitor_tick Obj self now w)) = update_count self)).
Proof.
  unfold monitor_tick.
  destruct (update_count self =? 0) eqn:E0;
    destruct (Qltb 2 (now - start_time self)) eqn:E2; cbn [andb].
  1: { destruct (Qltb 5 (now - last_warning_time w)) eqn:E5.
       - left. eexists. split; [reflexivity|]. split; [reflexivity|].
         apply Qltb_lt in E5, E2. apply Z.eqb_eq in E0.
         split; [exact E5|]. left. repeat split; assumption.
       - right. repeat split. now left. }
  all: destruct (update_count self =? last_count w) eqn:Ec;
    [|right; repeat split; now right].
  all: destruct (last_receive_time self) as [last|];
    [|right; repeat split; now left].
  all: destruct (Qltb 3 (now - last)) eqn:E3; [|right; repeat split; now left].
  all: destruct (Qltb 5 (now - last_warning_time w)) eqn:E5;
    [|right; repeat split; now left].
  all: left; eexists; split; [reflexivity|]; split; [reflexivity|];
    apply Qltb_lt in E5, E3; apply Z.eqb_eq in Ec;
    split; [exact E5|]; right; exists last; repeat split; assumption.
Qed.

Lemma warnings_spaced_from (ticks : list (Q * Stats Obj)) : forall w,
  spaced (last_warning_time w) (warning_times ticks (monitor_loop Obj ticks w)).
Proof.
  induction ticks as [|[now self] rest IH]; intros w; [exact I|].
  cbn [monitor_loop].
  destruct (tick_cases self now w) as [[warning [Hw [Hs [H5 _]]]]|[Hw [Hlw _]]];
    destruct (monitor_tick Obj self now w) as [w' m]; cbn [fst snd] in *; subst m.
  - unfold warning_times. cbn. split; [exact H5|].
    specialize (IH w'). rewrite Hs in IH at 1. exact IH.
  - unfold warning_times. cbn. specialize (IH w'). rewrite Hlw in IH. exact IH.
Qed.

Lemma advancing_quiet (ticks : list (Q * Stats Obj)) : forall w,
  advancing (last_count w) ticks ->
  Forall (fun m => m = None) (monitor_loop Obj ticks w).
Proof.
  induction ticks as [|[now self] rest IH]; intros w Ha; [constructor|].
  destruct Ha as [H0 [Hne Ha]]. cbn [monitor_loop].
  rewrite (tick_counting Obj self now w H0).
  apply Z.eqb_neq in Hne. rewrite Hne.
  constructor; [reflexivity|]. apply IH. exact Ha.
Qed.

End WatchdogRun.

(** However the listener's fields change between wake-ups and whatever the
    clock readings, the warnings of a run of the watchdog, of either kind,
    are each more than 5 seconds after the previous one, and the first is
    more than 5 seconds after clock reading 0. *)
Theorem watchdog_warnings_spaced
    (Obj : Type) (ticks : list (Q * Stats Obj)) :
  spaced 0 (warning_times ticks (_monitor_updates Obj ticks)) /\
  forall w, spaced (last_warning_time w)
                   (warning_times ticks (monitor_loop Obj ticks w)).
Proof.
  split; [|apply warnings_spaced_from].
  apply (warnings_spaced_from Obj ticks (new_watchdog)).
Qed.

(** A wake-up warns only for a cause: more than 5 seconds since the last
    warning, and either no update at all more than 2 seconds after the
    start, or a count that has not moved with the last update more than 3
    seconds old. A warning leaves the recorded count alone; a quiet wake-up
    leaves the time of the last warning alone. *)
Theorem watchdog_warning_causes
    (Obj : Type) (self : Stats Obj) (now : Q) (w : Watchdog) :
  let w' := fst (monitor_tick Obj self now w) in
  let logged := snd (monitor_tick Obj self now w) in
  (forall warning, logged = Some warning ->
     (5 < now - last_warning_time w)%Q /\
     w' = {| last_count := last_count w; last_warning_time := now |} /\
     ((warning = NoUpdatesWarning (now - start_time self)%Q /\
       update_count self = 0 /\ (2 < now - start_time self)%Q) \/
      (exists last,
         warning = StalledWarning (now - last)%Q /\
         update_count self = last_count w /\
         last_receive_time self = Some last /\ (3 < now - last)%Q))) /\
  (logged = None ->
     last_warning_time w' = last_warning_time w /\
     (last_count w' = last_count w \/ last_count w' = update_count self)).
Proof.
  cbn zeta.
  destruct (tick_cases Obj self now w) as [[m [Hw [Hs [H5 Hcause]]]]|[Hw Hrest]].
  - split.
    + intros warning Heq. rewrite Hw in Heq. injection Heq as <-.
      repeat split; assumption.
    + intros Heq. rewrite Hw in Heq. discriminate.
  - split.
    + intros warning Heq. rewrite Hw in Heq. discriminate.
    + intros _. exact Hrest.
Qed.

Lemma watchdog_warning_causes_witness :
  let self : Stats Demo.Obj := mkStats 5 PyNone (Some 10%Q) (Some 1%Q) 1%Q in
  let w := {| last_count := 5; last_warning_time := 0 |} in
  snd (monitor_tick Demo.Obj self 14%Q w) = Some (StalledWarning (14 - 10)%Q) /\
  (5 < 14 - last_warning_time w)%Q.
Proof.
  cbn zeta. split; [reflexivity|].
  exact (proj1 (proj1
    (watchdog_warning_causes Demo.Obj
       (mkStats 5 PyNone (Some 10%Q) (Some 1%Q) 1%Q) 14%Q
       {| last_count := 5; last_warning_time := 0 |})
    (StalledWarning (14 - 10)%Q) eq_refl)).
Defined.

(** While the count is not zero and differs at each wake-up from the count
    at the wake-up before, the watchdog logs nothing, however old the last
    update and however long since the last warning. *)
Theorem watchdog_quiet_while_advancing
    (Obj : Type) (ticks : list (Q * Stats Obj)) (w : Watchdog) :
  advancing (last_count w) ticks ->
  Forall (fun m => m = None) (monitor_loop Obj ticks w).
Proof. apply advancing_quiet. Qed.

Lemma watchdog_quiet_while_advancing_witness :
  let ticks : list (Q * Stats Demo.Obj) :=
    [(101%Q, mkStats 3 PyNone (Some 1%Q) None 100%Q);
     (102%Q, mkStats 4 PyNone (Some 1%Q) None 100%Q);
     (110%Q, mkStats 9 PyNone (Some 1%Q) None 100%Q)] in
  advancing (last_count new_watchdog) ticks /\
  Forall (fun m => m = None) (_monitor_updates Demo.Obj ticks).
Proof.
  cbn zeta.
  assert (Ha : advancing (last_count new_watchdog)
    [(101%Q, mkStats (Obj := Demo.Obj) 3 PyNone (Some 1%Q) None 100%Q);
     (102%Q, mkStats 4 PyNone (Some 1%Q) None 100%Q);
     (110%Q, mkStats 9 PyNone (Some 1%Q) None 100%Q)])
    by (cbn; repeat split; discriminate).
  split; [exact Ha|].
  exact (watchdog_quiet_while_advancing Demo.Obj _ new_watchdog Ha).
Defined.

(** ** [_describe_arm] *)

Section DescribeArmFacts.

Variable Obj : Type.
Variable str_of : Obj -> Py.str.
Variable truthy : Obj -> bool.


End DescribeArmFacts.



(** ** [add_reference] *)

(** [add_reference] puts the driver directory at the front of [sys.path]
    only when it is not there yet, so it never introduces a duplicate, and it
    never removes or reorders an entry. When it returns, pythonnet was
    importable, the directory is on [sys.path] and both assemblies have been
    referenced, interfaces first. When pythonnet is missing it raises and
    changes nothing. *)
Theorem add_reference_sys_path
    (clr_installed has_add_dll_directory : bool)
    (add_dll_directory AddReference : Py.str -> Outcome unit)
    (debug : string -> Outcome unit) (child : Py.str -> string -> Py.str)
    (path : Py.str) (i : Interp) :
  let r := add_reference clr_installed has_add_dll_directory add_dll_directory
             AddReference debug child path i in
  (sys_path (snd r) = sys_path i \/
   (~ In path (sys_path i) /\ sys_path (snd r) = path :: sys_path i)) /\
  (NoDup (sys_path i) -> NoDup (sys_path (snd r))) /\
  (fst r = Returned tt ->
     clr_installed = true /\
     In path (sys_path (snd r)) /\
     references (snd r) =
       references i ++ [child path "FaroArm.Interfaces.dll"%string;
                        child path "FaroArm.Net.dll"%string]) /\
  (clr_installed = false -> snd r = i /\ exists e, fst r = Raised e).
Proof.
  cbn zeta.
  assert (Hmain :
    let r := add_reference clr_installed has_add_dll_directory add_dll_directory
               AddReference debug child path i in
    (sys_path (snd r) = sys_path i \/
     (~ In path (sys_path i) /\ sys_path (snd r) = path :: sys_path i)) /\
    (fst r = Returned tt ->
       clr_installed = true /\
       In path (sys_path (snd r)) /\
       references (snd r) =
         references i ++ [child path "FaroArm.Interfaces.dll"%string;
                          child path "FaroArm.Net.dll"%string]) /\
    (clr_installed = false -> snd r = i /\ exists e, fst r = Raised e)).
  { cbn zeta. unfold add_reference.
    destruct (debug "Adding Faro .NET references from %s"%string) as [[]|e0];
      [|cbn; repeat split; try discriminate; [now left | now exists e0]].
    destruct clr_installed; cbn [negb];
      [|cbn; repeat split; try discriminate; [now left | eexists; reflexivity]].
    assert (Hfalse : true = false -> forall P : Prop, P) by discriminate.
    destruct has_add_dll_directory;
      [destruct (add_dll_directory path) as [[]|e1];
         [destruct (debug "Registered %s with DLL search path"%string) as [[]|e2]|]|];
      cbn [sys_path dll_dirs references fst snd];
      try (split; [now left | split; [discriminate | intros H; now apply Hfalse]]).
    all: destruct (in_dec str_eq_dec path (sys_path i)) as [Hin|Hnin];
      [|destruct (debug "Inserted %s into sys.path"%string) as [[]|e3]];
      cbn [sys_path dll_dirs references fst snd];
      try (split; [now right | split; [discriminate | intros H; now apply Hfalse]]).
    all: destruct (AddReference (child path "FaroArm.Interfaces.dll"%string)) as [[]|e4];
      [destruct (AddReference (child path "FaroArm.Net.dll"%string)) as [[]|e5];
         [destruct (debug "Successfully loaded FaroArm .NET assemblies"%string) as [[]|e6]|]|];
      cbn [sys_path dll_dirs references fst snd];
      (split; [first [now left | now right]|]);
      (split; [|intros H; now apply Hfalse]);
      try discriminate;
      intros _; (split; [reflexivity|]);
      (split; [first [exact Hin | now left]|]);
      now rewrite <- app_assoc. }
  cbn zeta in Hmain. destruct Hmain as [Hpath [Hok Hmissing]].
  split; [exact Hpath|]. split; [|split; assumption].
  intros Hnd. destruct Hpath as [->|[Hnin ->]]; [exact Hnd|].
  now constructor.
Qed.

Lemma add_reference_sys_path_witness :
  let dir := Py.of_string "C:\FARO" in
  let i := {| sys_path := [Py.of_string "."; dir]; dll_dirs := []; references := [] |} in
  let r := add_reference true true (fun _ => Returned tt) (fun _ => Returned tt)
             (fun _ => Returned tt)
             (fun p name => p ++ Py.of_string "\" ++ Py.of_string name) dir i in
  NoDup (sys_path i) /\ fst r = Returned tt /\
  NoDup (sys_path (snd r)) /\ In dir (sys_path (snd r)).
Proof.
  cbn zeta.
  assert (Hnd : NoDup [Py.of_string "."; Py.of_string "C:\FARO"]).
  { constructor; [|constructor; [intros []|constructor]].
    intros [H|[]]. discriminate. }
  split; [exact Hnd|]. split; [reflexivity|].
  pose proof (add_reference_sys_path true true (fun _ => Returned tt)
                (fun _ => Returned tt) (fun _ => Returned tt)
                (fun p name => p ++ Py.of_string "\" ++ Py.of_string name)
                (Py.of_string "C:\FARO")
                {| sys_path := [Py.of_string "."; Py.of_string "C:\FARO"];
                   dll_dirs := []; references := [] |}) as H.
  cbn zeta in H. destruct H as [_ [H1 [H2 _]]].
  split; [exact (H1 Hnd) | exact (proj1 (proj2 (H2 eq_refl)))].
Defined.

(** ** [FaroArmListener.close] *)

Section CloseFacts.

Variable log : Level -> string -> M unit.
Variable driver : list DriverCall -> DriverCall -> Outcome unit.

Lemma swallow_returns (body : Act unit) (s : Session) :
  fst (swallow body s) = Returned tt.
Proof. unfold swallow. destruct (body s) as [[[]|e] s']; reflexivity. Qed.

(** A guarded step: it returns, leaves the shutdown event alone, and makes
    its driver call unless logging raised before it. *)
Lemma guarded_step (level : Level) (message : string) (c : DriverCall)
    (s : Session) :
  let r := swallow (in_world (log level message) >> call_driver driver c) s in
  fst r = Returned tt /\
  shutdown_event (snd r) = shutdown_event s /\
  (driver_calls (snd r) = driver_calls s \/
   driver_calls (snd r) = driver_calls s ++ [c]) /\
  (fst (log level message (world s)) = Returned tt ->
   driver_calls (snd r) = driver_calls s ++ [c]).
Proof.
  cbn zeta. unfold swallow, and_then, in_world, call_driver.
  destruct (log level message (world s)) as [[[]|e] w']; cbn.
  - destruct (driver (driver_calls s) c) as [[]|e]; cbn;
      repeat split; now right.
  - repeat split; [now left | discriminate].
Qed.

Lemma and_then_run {A B} (m : Act A) (k : Act B) (s : Session) :
  (m >> k) s = match fst (m s) with
               | Returned _ => k (snd (m s))
               | Raised e => (Raised e, snd (m s))
               end.
Proof. unfold and_then. destruct (m s) as [[a|e] s']; reflexivity. Qed.

Lemma in_world_run (m : M unit) (s : Session) :
  fst (in_world m s) = fst (m (world s)) /\
  world (snd (in_world m s)) = snd (m (world s)) /\
  driver_calls (snd (in_world m s)) = driver_calls s /\
  shutdown_event (snd (in_world m s)) = shutdown_event s.
Proof. unfold in_world. destruct (m (world s)); repeat split. Qed.

(** [close] stage by stage: only the first and the last log call can end
    it early. *)
Lemma close_stages (s : Session) :
  let s0 := snd (in_world (log INFO "Shutting down FaroArmListener") s) in
  let s1 := snd (set_shutdown s0) in
  let s2 := snd (swallow (in_world (log DEBUG "Disabling Faro arm updates") >>
                          call_driver driver (EnableFaroArmUpdates false)) s1) in
  let s3 := snd (swallow (in_world (log DEBUG "Unsubscribing from FaroArmUpdate events") >>
                          call_driver driver Unsubscribe) s2) in
  let s4 := snd (swallow (in_world (log INFO "Disconnecting from Faro manager") >>
                          call_driver driver Disconnect) s3) in
  let last := in_world (log DEBUG "Total updates processed before shutdown: %d") s4 in
  close log driver s =
    match fst (log INFO "Shutting down FaroArmListener" (world s)) with
    | Raised e => (Raised e, s0)
    | Returned _ =>
        match fst last with
        | Raised e => (Raised e, snd last)
        | Returned _ => in_world (on_display clear) (snd last)
        end
    end.
Proof.
  cbn zeta. unfold close.
  rewrite and_then_run, (proj1 (in_world_run _ s)).
  destruct (fst (log INFO "Shutting down FaroArmListener" (world s)));
    [|reflexivity].
  rewrite and_then_run. cbn [set_shutdown fst].
  rewrite and_then_run, swallow_returns.
  rewrite and_then_run, swallow_returns.
  rewrite and_then_run, swallow_returns.
  rewrite and_then_run. reflexivity.
Qed.

End CloseFacts.

(** When logging does not raise, [close] returns whatever the driver does:
    it sets the shutdown event, makes the three driver calls in order
    (disable updates, unsubscribe, disconnect), each one even if the ones
    before raised, and leaves the status display cleared and inactive. *)
Theorem close_completes
    (log : Level -> string -> M unit)
    (driver : list DriverCall -> DriverCall -> Outcome unit) (s : Session) :
  (forall level message w, fst (log level message w) = Returned tt) ->
  let r := close log driver s in
  fst r = Returned tt /\
  shutdown_event (snd r) = true /\
  driver_calls (snd r) =
    driver_calls s ++ [EnableFaroArmUpdates false; Unsubscribe; Disconnect] /\
  last_text (display (world (snd r))) = [] /\
  last_length (display (world (snd r))) = 0 /\
  active (display (world (snd r))) = false.
Proof.
  intros Hlog. cbn zeta. rewrite close_stages. cbn zeta.
  rewrite Hlog.
  set (s0 := snd (in_world (log INFO "Shutting down FaroArmListener"%string) s)).
  set (s1 := snd (set_shutdown s0)).
  destruct (guarded_step log driver DEBUG "Disabling Faro arm updates"%string
              (EnableFaroArmUpdates false) s1) as [_ [S1 [_ C1]]].
  specialize (C1 (Hlog _ _ _)).
  set (s2 := snd (swallow _ s1)) in *.
  destruct (guarded_step log driver DEBUG
              "Unsubscribing from FaroArmUpdate events"%string Unsubscribe s2)
    as [_ [S2 [_ C2]]].
  specialize (C2 (Hlog _ _ _)).
  set (s3 := snd (swallow _ s2)) in *.
  destruct (guarded_step log driver INFO "Disconnecting from Faro manager"%string
              Disconnect s3) as [_ [S3 [_ C3]]].
  specialize (C3 (Hlog _ _ _)).
  set (s4 := snd (swallow _ s3)) in *.
  destruct (in_world_run
              (log DEBUG "Total updates processed before shutdown: %d"%string) s4)
    as [F5 [_ [D5 E5]]].
  rewrite F5, Hlog.
  set (s5 := snd (in_world _ s4)) in *.
  destruct (in_world_run (on_display clear) s5) as [F6 [W6 [D6 E6]]].
  destruct (in_world_run (log INFO "Shutting down FaroArmListener"%string) s)
    as [_ [_ [D0 _]]].
  fold s0 in D0.
  split; [rewrite F6; reflexivity|].
  split; [rewrite E6, E5, S3, S2, S1; reflexivity|].
  split.
  - rewrite D6, D5, C3, C2, C1. cbn [s1 set_shutdown snd driver_calls].
    rewrite D0, <- !app_assoc. reflexivity.
  - rewrite W6. repeat split.
Qed.

Lemma close_completes_witness :
  let failing := fun (_ : list DriverCall) (_ : DriverCall) =>
    Raised (A := unit) (OtherException "COMException") in
  let s := {| world := {| display := fst (write (Some 80) (Some (Py.of_string "X=1.0"))
                                           (init None));
                          stdout := [] |};
              driver_calls := [];
              shutdown_event := false |} in
  fst (close demo_log failing s) = Returned tt /\
  driver_calls (snd (close demo_log failing s))
    = [EnableFaroArmUpdates false; Unsubscribe; Disconnect].
Proof.
  cbn zeta.
  assert (Hlog : forall level message w, fst (demo_log level message w) = Returned tt).
  { intros level message w. unfold demo_log. rewrite emit_run. reflexivity. }
  pose proof (close_completes demo_log
                (fun _ _ => Raised (OtherException "COMException"))
                {| world := {| display := fst (write (Some 80)
                                                 (Some (Py.of_string "X=1.0"))
                                                 (init None));
                               stdout := [] |};
                   driver_calls := [];
                   shutdown_event := false |} Hlog) as H.
  cbn zeta in H. destruct H as [H1 [_ [H2 _]]].
  split; [exact H1 | exact H2].
Defined.

(** Nothing the driver raises escapes [close], and neither does an
    exception of the logging inside the three guarded steps: when [close]
    raises, the exception comes from its first or its last log call. In any
    case the driver has received, in order, some of the three calls and no
    other. *)
Theorem close_raises_only_from_logging
    (log : Level -> string -> M unit)
    (driver : list DriverCall -> DriverCall -> Outcome unit) (s : Session) :
  let r := close log driver s in
  (forall e, fst r = Raised e ->
     fst (log INFO "Shutting down FaroArmListener"%string (world s)) = Raised e \/
     exists w,
       fst (log DEBUG "Total updates processed before shutdown: %d"%string w)
         = Raised e) /\
  (exists a b c,
     driver_calls (snd r) = driver_calls s ++ a ++ b ++ c /\
     (a = [] \/ a = [EnableFaroArmUpdates false]) /\
     (b = [] \/ b = [Unsubscribe]) /\
     (c = [] \/ c = [Disconnect])).
Proof.
  cbn zeta. rewrite close_stages. cbn zeta.
  destruct (in_world_run (log INFO "Shutting down FaroArmListener"%string) s)
    as [_ [_ [D0 _]]].
  set (s0 := snd (in_world (log INFO "Shutting down FaroArmListener"%string) s)) in *.
  destruct (fst (log INFO "Shutting down FaroArmListener"%string (world s)))
    as [[]|e0].
  2: { split; [intros e H; left; exact H|].
       exists [], [], []. cbn [snd]. rewrite D0, !app_nil_r.
       repeat split; now left. }
  set (s1 := snd (set_shutdown s0)).
  destruct (guarded_step log driver DEBUG "Disabling Faro arm updates"%string
              (EnableFaroArmUpdates false) s1) as [_ [_ [C1 _]]].
  set (s2 := snd (swallow _ s1)) in *.
  destruct (guarded_step log driver DEBUG
              "Unsubscribing from FaroArmUpdate events"%string Unsubscribe s2)
    as [_ [_ [C2 _]]].
  set (s3 := snd (swallow _ s2)) in *.
  destruct (guarded_step log driver INFO "Disconnecting from Faro manager"%string
              Disconnect s3) as [_ [_ [C3 _]]].
  set (s4 := snd (swallow _ s3)) in *.
  assert (Hcalls : exists a b c,
     driver_calls s4 = driver_calls s ++ a ++ b ++ c /\
     (a = [] \/ a = [EnableFaroArmUpdates false]) /\
     (b = [] \/ b = [Unsubscribe]) /\
     (c = [] \/ c = [Disconnect])).
  { assert (D1 : driver_calls s1 = driver_calls s) by exact D0.
    destruct C1 as [C1|C1], C2 as [C2|C2], C3 as [C3|C3];
      [ exists [], [], [] | exists [], [], [Disconnect]
      | exists [], [Unsubscribe], [] | exists [], [Unsubscribe], [Disconnect]
      | exists [EnableFaroArmUpdates false], [], []
      | exists [EnableFaroArmUpdates false], [], [Disconnect]
      | exists [EnableFaroArmUpdates false], [Unsubscribe], []
      | exists [EnableFaroArmUpdates false], [Unsubscribe], [Disconnect] ];
      (split;
       [ rewrite C3, C2, C1, D1; rewrite <- ?app_assoc; cbn [app];
         rewrite ?app_nil_r; reflexivity
       | repeat split; first [now left | now right] ]). }
  destruct (in_world_run
              (log DEBUG "Total updates processed before shutdown: %d"%string) s4)
    as [F5 [_ [D5 _]]].
  set (last := in_world _ s4) in *.
  destruct (fst last) as [[]|e5] eqn:E5.
  - split; [|].
    + intros e H. rewrite (proj1 (in_world_run (on_display clear) (snd last))) in H.
      discriminate.
    + rewrite (proj1 (proj2 (proj2 (in_world_run (on_display clear) (snd last))))).
      rewrite D5. exact Hcalls.
  - split.
    + intros e H. injection H as <-. right. exists (world s4). now rewrite <- F5.
    + cbn [snd]. rewrite D5. exact Hcalls.
Qed.

Lemma close_raises_only_from_logging_witness :
  let log := fun (level : Level) (message : string) =>
    if String.eqb message "Total updates processed before shutdown: %d"
    then (fun w : World => (Raised (A := unit) ValueError, w))
    else demo_log level message in
  let s := {| world := {| display := init None; stdout := [] |};
              driver_calls := [];
              shutdown_event := false |} in
  fst (close log (fun _ _ => Returned tt) s) = Raised ValueError /\
  exists w,
    fst (log DEBUG "Total updates processed before shutdown: %d"%string w)
      = Raised ValueError.
Proof.
  cbn zeta.
  assert (Hr : fst (close
      (fun (level : Level) (message : string) =>
         if String.eqb message "Total updates processed before shutdown: %d"
         then (fun w : World => (Raised (A := unit) ValueError, w))
         else demo_log level message)
      (fun _ _ => Returned tt)
      {| world := {| display := init None; stdout := [] |};
         driver_calls := [];
         shutdown_event := false |}) = Raised ValueError) by reflexivity.
  split; [exact Hr|].
  destruct (proj1 (close_raises_only_from_logging _ _ _) ValueError Hr) as [H|H].
  - discriminate H.
  - exact H.
Defined.

(** ** Any sequence of calls *)

Lemma in_sync_extent (d : StatusDisplay) (t : Terminal) :
  in_sync (d, t) ->
  forall n, (List.length (last_text d) <= n)%nat -> cell (line t) n = Py.space.
Proof.
  intros [_ [_ H]] n Hn. cbn [fst snd] in H. destruct (active d).
  - now apply (shows_extent t (last_text d)).
  - rewrite (H n). apply cell_nil.
Qed.

Lemma write_shows_from_extent
    (measured : option Z) (text : Py.str) (d : StatusDisplay) (t : Terminal) :
  consistent d ->
  (forall n, (List.length (last_text d) <= n)%nat -> cell (line t) n = Py.space) ->
  ~ In Py.cr text ->
  shows (print (snd (write measured (Some text) d)) t)
        (last_text (fst (write measured (Some text) d))).
Proof.
  intros Hc Hext Hcr. unfold write. cbn [fst snd last_text].
  set (shown := fit (measure_width measured d) text).
  assert (Hp : plain shown) by now apply plain_fit.
  assert (Hpad : (if Py.len shown <? last_length d
                  then Py.spaces (last_length d - Py.len shown) else [])
                 = Py.spaces (last_length d - Py.len shown)).
  { destruct (Py.len shown <? last_length d) eqn:E; [reflexivity|].
    apply Z.ltb_ge in E. now rewrite spaces_nonpos by lia. }
  rewrite Hpad. intros n.
  rewrite print_text_and_pad, print_text_only by exact Hp.
  destruct (Nat.ltb_spec n (List.length shown)); [reflexivity|].
  destruct (Nat.ltb_spec n
              (List.length shown + Z.to_nat (last_length d - Py.len shown)));
    [reflexivity|].
  apply Hext. unfold consistent in Hc. unfold Py.len in *. lia.
Qed.

Lemma erase_from_extent (d : StatusDisplay) (t : Terminal) :
  consistent d ->
  (forall n, (List.length (last_text d) <= n)%nat -> cell (line t) n = Py.space) ->
  same_line (print (Py.cr :: Py.spaces (last_length d) ++ [Py.cr]) t) blank_line.
Proof.
  intros Hc Hext.
  change (Py.cr :: Py.spaces (last_length d) ++ [Py.cr])
    with ((Py.cr :: [] ++ Py.spaces (last_length d)) ++ [Py.cr]).
  rewrite print_app. intros n.
  change (cell (line (print (Py.cr :: [] ++ Py.spaces (last_length d)) t)) n
          = cell [] n).
  rewrite print_text_and_pad by constructor. rewrite cell_nil. cbn [List.length].
  destruct (Nat.ltb_spec n 0); [lia|].
  destruct (Nat.ltb_spec n (0 + Z.to_nat (last_length d))); [reflexivity|].
  apply Hext. unfold consistent, Py.len in Hc. lia.
Qed.

Lemma perform_on_in_sync (c : Call) (dt : StatusDisplay * Terminal) :
  cr_free c -> in_sync dt -> in_sync (perform_on c dt).
Proof.
  destruct dt as [d t]. intros Hfree Hsync.
  pose proof (in_sync_extent d t Hsync) as Hext.
  destruct Hsync as [Hc [Hp Hline]]. cbn [fst snd] in Hc, Hp, Hline.
  unfold perform_on, in_sync. cbn [fst snd].
  destruct c as [measured [text|] | | | ]; cbn [perform cr_free] in *.
  - split; [reflexivity|]. split; [now apply plain_fit|].
    change (active (fst (write measured (Some text) d))) with true. cbn iota.
    now apply write_shows_from_extent.
  - cbn [write fst snd print fold_left]. repeat split; assumption.
  - unfold interrupt. destruct (active d) eqn:Ea; cbn [fst snd active last_text].
    + split; [exact Hc|]. split; [exact Hp|]. now apply erase_from_extent.
    + rewrite Ea. split; [exact Hc|]. split; [exact Hp|].
      intros n. apply (Hline n).
  - rewrite (restore_output d Hc). unfold restore.
    destruct (last_text d) as [|ch text] eqn:Et; cbn [fst snd].
    + change (print [] t) with t. rewrite Et. repeat split; assumption.
    + cbn [last_text active].
      split; [unfold consistent in *; cbn [last_text last_length]; congruence|].
      split; [exact Hp|].
      intros n. rewrite print_text_only by exact Hp.
      pose proof (print_text_and_pad (ch :: text) 0 t n Hp) as H.
      change (Py.spaces 0) with (@nil ascii) in H. rewrite app_nil_r in H.
      rewrite H. cbn [Z.to_nat].
      destruct (Nat.ltb_spec n (List.length (ch :: text))); [reflexivity|].
      destruct (Nat.ltb_spec n (List.length (ch :: text) + 0)); [reflexivity|].
      apply Hext. lia.
  - unfold clear. cbn [fst snd active last_text].
    split; [reflexivity|]. split; [constructor|]. now apply erase_from_extent.
Qed.

(** From a new display on a blank line, after any sequence of [write],
    [interrupt], [restore] and [clear] calls in any order, with any
    terminal widths and any texts without carriage returns, the line shows
    exactly the remembered text when the display is active and is blank when
    it is not. *)
Theorem display_and_line_in_sync
    (measured : option Z) (calls : list Call) :
  Forall cr_free calls ->
  let d := fst (run_calls calls (init measured, blank_line)) in
  let t := snd (run_calls calls (init measured, blank_line)) in
  consistent d /\
  (active d = true -> shows t (last_text d)) /\
  (active d = false -> same_line t blank_line).
Proof.
  intros Hfree. cbn zeta.
  assert (Hinv : in_sync (run_calls calls (init measured, blank_line))).
  { unfold run_calls.
    assert (H0 : in_sync (init measured, blank_line)).
    { split; [reflexivity|]. split; [constructor|]. intros n. reflexivity. }
    revert H0. generalize (init measured, blank_line).
    induction Hfree as [|c calls Hc _ IH]; intros dt H0; [exact H0|].
    cbn [fold_left]. apply IH. now apply perform_on_in_sync. }
  destruct Hinv as [Hc [_ Hline]]. split; [exact Hc|].
  destruct (active _); split; intros H; try discriminate; exact Hline.
Qed.

Lemma display_and_line_in_sync_witness :
  let calls :=
    [CallWrite (Some 80) (Some (Py.of_string "a rather long status line"));
     CallInterrupt;
     CallWrite None (Some (Py.of_string "short"));
     CallInterrupt;
     CallRestore] in
  Forall cr_free calls /\
  shows (snd (run_calls calls (init None, blank_line))) (Py.of_string "short").
Proof.
  cbn zeta.
  assert (Hfree : Forall cr_free
    [CallWrite (Some 80) (Some (Py.of_string "a rather long status line"));
     CallInterrupt;
     CallWrite None (Some (Py.of_string "short"));
     CallInterrupt;
     CallRestore]).
  { repeat constructor; cbn; intuition discriminate. }
  split; [exact Hfree|].
  exact (proj1 (proj2 (display_and_line_in_sync None _ Hfree)) eq_refl).
Defined.
